(** * Stake Engine client: the operation layer of [src/client.ts]

    A shallow embedding of the TypeScript client for the Stake Engine RGS:
    [src/constants.ts], [src/fetcher.ts] and [src/client.ts].

    - JavaScript numbers are IEEE-754 binary64 values: [float] of the
      Standard Library, whose operations are the hardware ones.
    - JavaScript values that flow through the client (strings, numbers,
      [undefined], [null], decoded JSON bodies) are the inductive [value].
    - A promise is modelled by how it settles: [Resolved] or [Rejected].
    - The effects of the client (reading [window.location.search], calling
      [fetch], writing to the console) act on an explicit [world], threaded
      by the monad [IO]. Outside a browser there is no [window]: the
      world says whether it is defined. *)

From Stdlib Require Import ZArith NArith String Ascii List Bool Lia.
From Stdlib Require Import Floats Uint63 DecimalString.
Import ListNotations.

Local Open Scope list_scope.
Local Open Scope string_scope.

(** ** JavaScript values *)

#[local] Set Warnings "-register-all".

Inductive value : Type :=
| VUndefined
| VNull
| VBool (b : bool)
| VNum (x : float)
| VStr (s : string)
| VArr (items : list value)
| VObj (props : list (string * value)).

(** An optional string property of an options object: absent is
    [undefined]. *)
Definition of_string (o : option string) : value :=
  match o with
  | Some s => VStr s
  | None => VUndefined
  end.

Definition is_empty (s : string) : bool :=
  match s with
  | EmptyString => true
  | String _ _ => false
  end.

(** ToBoolean: [undefined], [null], [false], [0], [-0], [NaN] and the empty
    string are falsy, every other value is truthy. *)
Definition truthy (v : value) : bool :=
  match v with
  | VUndefined | VNull => false
  | VBool b => b
  | VNum x => negb (PrimFloat.eqb x 0%float) && PrimFloat.eqb x x
  | VStr s => negb (is_empty s)
  | VArr _ | VObj _ => true
  end.

(** [a || b] *)
Definition js_or (a b : value) : value :=
  if truthy a then a else b.

(** [Number.isFinite]: neither [NaN] nor an infinity. *)
Definition is_finite (x : float) : bool :=
  match Prim2SF x with
  | S754_zero _ | S754_finite _ _ _ => true
  | S754_infinity _ | S754_nan => false
  end.

(** The number a JSON text holds for a finite float: the text of [-0] is
    [0]. *)
Definition json_number (x : float) : float :=
  match Prim2SF x with
  | S754_zero _ => 0%float
  | _ => x
  end.

(** The integer a float is, when it is one: a finite float is
    [(-1)^s * m * 2^e]. *)
Definition float_integer (x : float) : option Z :=
  match Prim2SF x with
  | S754_zero _ => Some 0%Z
  | S754_finite s m e =>
      let sm := if s then Z.neg m else Z.pos m in
      if (0 <=? e)%Z then Some (sm * 2 ^ e)%Z
      else if (sm mod 2 ^ (- e) =? 0)%Z then Some (sm / 2 ^ (- e))%Z
      else None
  | S754_infinity _ | S754_nan => None
  end.

(** The rounding the description of the amount format asks for: the
    nearest integer of a finite float, [floor (x + 1/2)] as [Math.round]
    computes it (a tie goes up). *)
Definition round_to_nearest (x : float) : option Z :=
  match Prim2SF x with
  | S754_zero _ => Some 0%Z
  | S754_finite s m e =>
      let sm := if s then Z.neg m else Z.pos m in
      if (0 <=? e)%Z then Some (sm * 2 ^ e)%Z
      else Some ((2 * sm + 2 ^ (- e)) / (2 * 2 ^ (- e)))%Z
  | S754_infinity _ | S754_nan => None
  end.

Fixpoint lookup {A : Type} (k : string) (l : list (string * A)) : option A :=
  match l with
  | [] => None
  | (k', a) :: tl => if String.eqb k k' then Some a else lookup k tl
  end.

(** ** Promises and failures *)

Inductive failure : Type :=
| Error (message : string)          (* [new Error(message)] *)
| TypeError (message : string)      (* a property read on [null] *)
| ReferenceError (message : string) (* a global that is not defined *)
| SyntaxError                       (* [response.json()] on a body that is not JSON *)
| FetchFailure (reason : string).   (* [fetch] itself rejected *)

Inductive outcome (A : Type) : Type :=
| Resolved (a : A)
| Rejected (e : failure).

Arguments Resolved {A} a.
Arguments Rejected {A} e.

(** ** Requests, responses and the world *)

Inductive http_method : Type := GET | POST.

(** The arguments of one call of [fetch]: the URL and the [RequestInit].
    [req_body] is the JSON document the body text denotes; [None] when the
    init object has no body. *)
Record request : Type := mkRequest {
  req_url : string;
  req_method : http_method;
  req_headers : list (string * string);
  req_body : option value
}.

(** What the client reads of a [Response]: [resp_json] is what
    [response.json()] resolves with, [None] when it rejects. *)
Record response : Type := mkResponse {
  resp_status : N;
  resp_statusText : string;
  resp_json : option value
}.

(** The decoded query string of the page, in order of appearance. *)
Definition query : Type := list (string * string).

Record world : Type := mkWorld {
  window_defined : bool;             (* whether the global [window] exists *)
  location_search : query;           (* [window.location.search], where it does *)
  network : list request;            (* calls of [fetch], oldest first *)
  console : list (N * string)        (* [console.error] lines: status, statusText *)
}.

Definition IO (A : Type) : Type := world -> outcome A * world.

Definition ret {A : Type} (a : A) : IO A := fun w => (Resolved a, w).

Definition throw {A : Type} (e : failure) : IO A := fun w => (Rejected e, w).

Definition bind {A B : Type} (m : IO A) (f : A -> IO B) : IO B :=
  fun w =>
    match m w with
    | (Resolved a, w') => f a w'
    | (Rejected e, w') => (Rejected e, w')
    end.

(** [p.catch(h)] *)
Definition catch {A : Type} (m : IO A) (h : failure -> IO A) : IO A :=
  fun w =>
    match m w with
    | (Resolved a, w') => (Resolved a, w')
    | (Rejected e, w') => h e w'
    end.

Declare Scope io_scope.
Delimit Scope io_scope with io.

Notation "x <- m ;; k" := (bind m (fun x => k))
  (at level 100, m at next level, right associativity) : io_scope.
Notation "m ;;; k" := (bind m (fun _ => k))
  (at level 100, right associativity) : io_scope.

Local Open Scope io_scope.

(** ** [src/constants.ts] *)

(** In API, amount 1000000 is 1 dollar. *)
Definition API_AMOUNT_MULTIPLIER : float := 1000000%float.

(** In books, amount 100 is 1 dollar. *)
Definition BOOK_AMOUNT_MULTIPLIER : float := 100%float.

(** [`${n}`] for the status of a response, a non-negative integer. *)
Definition status_toString (n : N) : string :=
  NilZero.string_of_uint (N.to_uint n).

Section Client.

(** The global [fetch] of the host. *)
Variable fetch : request -> outcome response.

(** [Number.prototype.toString] of the host. *)
Variable Number_toString : float -> string.

(** ToString, as a template literal applies it. A decoded object has no
    function of its own: where it has a property [toString] of its own,
    that hides the inherited one and the conversion raises. An array is
    joined, [null] and [undefined] giving the empty string. *)
Fixpoint ToString (v : value) : outcome string :=
  match v with
  | VUndefined => Resolved "undefined"
  | VNull => Resolved "null"
  | VBool true => Resolved "true"
  | VBool false => Resolved "false"
  | VNum x => Resolved (Number_toString x)
  | VStr s => Resolved s
  | VObj props =>
      match lookup "toString" props with
      | Some _ => Rejected (TypeError "Cannot convert object to primitive value")
      | None => Resolved "[object Object]"
      end
  | VArr items =>
      (fix join (l : list value) : outcome string :=
         match l with
         | [] => Resolved ""
         | x :: tl =>
             match match x with
                   | VUndefined | VNull => Resolved ""
                   | _ => ToString x
                   end with
             | Rejected e => Rejected e
             | Resolved here =>
                 match tl with
                 | [] => Resolved here
                 | _ :: _ =>
                     match join tl with
                     | Rejected e => Rejected e
                     | Resolved rest => Resolved (here ++ "," ++ rest)
                     end
                 end
             end
         end) items
  end.

(** The document [JSON.stringify] writes: a property whose value is
    [undefined] is left out, a non-finite number and an [undefined] array
    element are written [null], [-0] is written [0]; [undefined] itself
    has no text. *)
Fixpoint JSON_stringify (v : value) : option value :=
  match v with
  | VUndefined => None
  | VNull => Some VNull
  | VBool b => Some (VBool b)
  | VNum x => if is_finite x then Some (VNum (json_number x)) else Some VNull
  | VStr s => Some (VStr s)
  | VArr items =>
      Some (VArr (map (fun x => match JSON_stringify x with
                                | Some d => d
                                | None => VNull
                                end) items))
  | VObj props =>
      Some (VObj ((fix fields (l : list (string * value)) : list (string * value) :=
                     match l with
                     | [] => []
                     | (k, x) :: tl =>
                         match JSON_stringify x with
                         | Some d => (k, d) :: fields tl
                         | None => fields tl
                         end
                     end) props))
  end.

(** [v.name]: a [TypeError] on [null] and [undefined], [undefined] when
    the value has no such property. *)
Definition get_property (v : value) (name : string) : outcome value :=
  match v with
  | VUndefined =>
      Rejected (TypeError ("Cannot read properties of undefined (reading '" ++ name ++ "')"))
  | VNull =>
      Rejected (TypeError ("Cannot read properties of null (reading '" ++ name ++ "')"))
  | VObj props =>
      match lookup name props with
      | Some x => Resolved x
      | None => Resolved VUndefined
      end
  | _ => Resolved VUndefined
  end.

(** ** [src/fetcher.ts] *)

Record FetcherOptions : Type := mkFetcherOptions {
  fo_fetch : option (request -> outcome response);
  fo_method : http_method;
  fo_endpoint : string;
  fo_variables : value
}.

Definition fetcher (options : FetcherOptions) : IO response :=
  fun w =>
    let fetchFn := match fo_fetch options with
                   | Some f => f
                   | None => fetch
                   end in
    let init :=
      {| req_url := fo_endpoint options;
         req_method := fo_method options;
         req_headers := [("Content-Type", "application/json")];
         req_body := match fo_method options with
                     | GET => None
                     | POST => JSON_stringify (fo_variables options)
                     end |} in
    (fetchFn init,
     {| window_defined := window_defined w;
        location_search := location_search w;
        network := (network w ++ [init])%list;
        console := console w |}).

(** ** [src/client.ts] *)

Definition console_error (status : N) (statusText : string) : IO unit :=
  fun w =>
    (Resolved tt,
     {| window_defined := window_defined w;
        location_search := location_search w;
        network := network w;
        console := (console w ++ [(status, statusText)])%list |}).

(** [response.json()] *)
Definition response_json (r : response) : IO value :=
  match resp_json r with
  | Some v => ret v
  | None => throw SyntaxError
  end.

Definition lift {A : Type} (o : outcome A) : IO A := fun w => (o, w).

(** The text of the error [post] throws: the status, its text and, where
    the error body has a truthy [message], that message. *)
Definition api_error_message (r : response) (message : value) : outcome string :=
  if truthy message then
    match ToString message with
    | Resolved text =>
        Resolved ("RGS API error: " ++ status_toString (resp_status r) ++ " "
                    ++ resp_statusText r ++ " - " ++ text)
    | Rejected e => Rejected e
    end
  else
    Resolved ("RGS API error: " ++ status_toString (resp_status r) ++ " "
                ++ resp_statusText r).

(** [StakeEngineClient.post] *)
Definition post (url : string) (rgsUrl : value) (variables : value) : IO value :=
  host <- lift (ToString rgsUrl) ;;
  response <- fetcher {| fo_fetch := None;
                         fo_method := POST;
                         fo_endpoint := "https://" ++ host ++ url;
                         fo_variables := variables |} ;;
  if negb (N.eqb (resp_status response) 200) then
    console_error (resp_status response) (resp_statusText response) ;;;
    errorData <- catch (response_json response) (fun _ => ret (VObj [])) ;;
    message <- lift (get_property errorData "message") ;;
    text <- lift (api_error_message response message) ;;
    throw (Error text)
  else
    data <- response_json response ;;
    ret data.

(** [StakeEngineClient.get] *)
Definition get (url : string) (rgsUrl : value) : IO value :=
  host <- lift (ToString rgsUrl) ;;
  response <- fetcher {| fo_fetch := None;
                         fo_method := GET;
                         fo_endpoint := "https://" ++ host ++ url;
                         fo_variables := VUndefined |} ;;
  if negb (N.eqb (resp_status response) 200) then
    console_error (resp_status response) (resp_statusText response) ;;;
    errorData <- catch (response_json response) (fun _ => ret (VObj [])) ;;
    message <- lift (get_property errorData "message") ;;
    text <- lift (api_error_message response message) ;;
    throw (Error text)
  else
    data <- response_json response ;;
    ret data.

(** [urlParams.get(name)]: the first value of that name, or [null]. *)
Definition URLSearchParams_get (name : string) (urlParams : query) : value :=
  match lookup name urlParams with
  | Some s => VStr s
  | None => VNull
  end.

Record UrlParams : Type := mkUrlParams {
  up_sessionID : value;
  up_rgsUrl : value;
  up_language : value;
  up_currency : value
}.

(** [window] is read as it stands: where the global does not exist, as
    under Node.js, the read raises. *)
Definition getUrlParams : IO UrlParams :=
  fun w =>
    if window_defined w then
      let urlParams := location_search w in
      (Resolved
         {| up_sessionID := URLSearchParams_get "sessionID" urlParams;
            up_rgsUrl := URLSearchParams_get "rgs_url" urlParams;
            up_language := js_or (URLSearchParams_get "lang" urlParams) (VStr "en");
            up_currency := js_or (URLSearchParams_get "currency" urlParams) (VStr "USD") |},
       w)
    else (Rejected (ReferenceError "window is not defined"), w).

(** [options?.field] for an optional string field. *)
Definition optional {O : Type} (options : option O) (field : O -> option string) : value :=
  match options with
  | Some o => of_string (field o)
  | None => VUndefined
  end.

(** A number property read at run time: absent is [undefined]. *)
Definition of_number (o : option float) : value :=
  match o with
  | Some x => VNum x
  | None => VUndefined
  end.

(** ToNumber of such a property: [undefined] converts to [NaN]. *)
Definition to_number (o : option float) : float :=
  match o with
  | Some x => x
  | None => nan
  end.

Definition sessionID_required : string :=
  "sessionID is required (provide in options or URL param)".

Definition rgsUrl_required : string :=
  "rgsUrl is required (provide in options or rgs_url URL param)".

Record AuthenticateOptions : Type := mkAuthenticateOptions {
  auth_sessionID : option string;
  auth_rgsUrl : option string;
  auth_language : option string
}.

Definition requestAuthenticate (options : option AuthenticateOptions) : IO value :=
  urlParams <- getUrlParams ;;
  let sessionID := js_or (optional options auth_sessionID) (up_sessionID urlParams) in
  let rgsUrl := js_or (optional options auth_rgsUrl) (up_rgsUrl urlParams) in
  let language := js_or (optional options auth_language) (up_language urlParams) in
  if negb (truthy sessionID) then throw (Error sessionID_required)
  else if negb (truthy rgsUrl) then throw (Error rgsUrl_required)
  else post "/wallet/authenticate" rgsUrl
         (VObj [("sessionID", sessionID); ("language", language)]).

(** The type of the parameter declares [amount: number] and [mode: string]
    without [?]; the compiled function is also called from plain
    JavaScript, where either can be absent, hence the [option]s. *)
Record BetOptions : Type := mkBetOptions {
  bet_amount : option float;
  bet_mode : option string;
  bet_currency : option string;
  bet_sessionID : option string;
  bet_rgsUrl : option string
}.

Definition requestBet (options : BetOptions) : IO value :=
  urlParams <- getUrlParams ;;
  let sessionID := js_or (of_string (bet_sessionID options)) (up_sessionID urlParams) in
  let rgsUrl := js_or (of_string (bet_rgsUrl options)) (up_rgsUrl urlParams) in
  let currency := js_or (of_string (bet_currency options)) (up_currency urlParams) in
  if negb (truthy sessionID) then throw (Error sessionID_required)
  else if negb (truthy rgsUrl) then throw (Error rgsUrl_required)
  else post "/wallet/play" rgsUrl
         (VObj [("mode", of_string (bet_mode options));
                ("currency", currency);
                ("sessionID", sessionID);
                ("amount", VNum (to_number (bet_amount options) * API_AMOUNT_MULTIPLIER)%float)]).

Record EndRoundOptions : Type := mkEndRoundOptions {
  endround_sessionID : option string;
  endround_rgsUrl : option string
}.

Definition requestEndRound (options : option EndRoundOptions) : IO value :=
  urlParams <- getUrlParams ;;
  let sessionID := js_or (optional options endround_sessionID) (up_sessionID urlParams) in
  let rgsUrl := js_or (optional options endround_rgsUrl) (up_rgsUrl urlParams) in
  if negb (truthy sessionID) then throw (Error sessionID_required)
  else if negb (truthy rgsUrl) then throw (Error rgsUrl_required)
  else post "/wallet/end-round" rgsUrl (VObj [("sessionID", sessionID)]).

Record EndEventOptions : Type := mkEndEventOptions {
  event_eventIndex : option float;
  event_sessionID : option string;
  event_rgsUrl : option string
}.

Definition requestEndEvent (options : EndEventOptions) : IO value :=
  urlParams <- getUrlParams ;;
  let sessionID := js_or (of_string (event_sessionID options)) (up_sessionID urlParams) in
  let rgsUrl := js_or (of_string (event_rgsUrl options)) (up_rgsUrl urlParams) in
  if negb (truthy sessionID) then throw (Error sessionID_required)
  else if negb (truthy rgsUrl) then throw (Error rgsUrl_required)
  else
    event <- lift (ToString (of_number (event_eventIndex options))) ;;
    post "/bet/event" rgsUrl
      (VObj [("sessionID", sessionID); ("event", VStr event)]).

(** [search] is passed on as it is given: an object with the optional
    properties bookID, kind, symbol, hasWild, wildMult and gameType. *)
Record ForceResultOptions : Type := mkForceResultOptions {
  force_mode : option string;
  force_search : value;
  force_rgsUrl : option string
}.

Definition requestForceResult (options : ForceResultOptions) : IO value :=
  urlParams <- getUrlParams ;;
  let rgsUrl := js_or (of_string (force_rgsUrl options)) (up_rgsUrl urlParams) in
  if negb (truthy rgsUrl) then throw (Error rgsUrl_required)
  else post "/game/search" rgsUrl
         (VObj [("mode", of_string (force_mode options));
                ("search", force_search options)]).

Record BalanceOptions : Type := mkBalanceOptions {
  balance_sessionID : option string;
  balance_rgsUrl : option string
}.

Definition requestBalance (options : option BalanceOptions) : IO value :=
  urlParams <- getUrlParams ;;
  let sessionID := js_or (optional options balance_sessionID) (up_sessionID urlParams) in
  let rgsUrl := js_or (optional options balance_rgsUrl) (up_rgsUrl urlParams) in
  if negb (truthy sessionID) then throw (Error sessionID_required)
  else if negb (truthy rgsUrl) then throw (Error rgsUrl_required)
  else post "/wallet/balance" rgsUrl (VObj [("sessionID", sessionID)]).

(** ** The exported operations, as one type

    [src/index.ts] exports the six operations; a [call] is one of them
    with its argument, so that a statement can range over all of them. *)

Inductive call : Type :=
| Authenticate (options : option AuthenticateOptions)
| Bet (options : BetOptions)
| EndRound (options : option EndRoundOptions)
| EndEvent (options : EndEventOptions)
| ForceResult (options : ForceResultOptions)
| Balance (options : option BalanceOptions)
| BetWithoutOptions            (* [requestBet()] *)
| EndEventWithoutOptions       (* [requestEndEvent()] *)
| ForceResultWithoutOptions.   (* [requestForceResult()] *)

(** [requestBet], [requestEndEvent] and [requestForceResult] read their
    options without [?.]: called without an options object, their body
    runs with [options] undefined and ends at the first property it reads
    of it, after [getUrlParams]. *)
Definition without_options (property : string) : IO value :=
  urlParams <- getUrlParams ;;
  lift (get_property VUndefined property).

Definition invoke (c : call) : IO value :=
  match c with
  | Authenticate o => requestAuthenticate o
  | Bet o => requestBet o
  | EndRound o => requestEndRound o
  | EndEvent o => requestEndEvent o
  | ForceResult o => requestForceResult o
  | Balance o => requestBalance o
  | BetWithoutOptions => without_options "sessionID"
  | EndEventWithoutOptions => without_options "sessionID"
  | ForceResultWithoutOptions => without_options "rgsUrl"
  end.

End Client.

(** ** The earlier copy of [client.ts]

    The repository holds a second copy of the client, from before the URL
    fallback and the HTTP error were added. Its [post] logs a status other
    than 200 and goes on to decode the body. *)

Module Legacy.
Section Client.

Variable fetch : request -> outcome response.
Variable Number_toString : float -> string.

Definition post (url : string) (rgsUrl : value) (variables : value) : IO value :=
  host <- lift (ToString Number_toString rgsUrl) ;;
  response <- fetcher fetch {| fo_fetch := None;
                               fo_method := POST;
                               fo_endpoint := "https://" ++ host ++ url;
                               fo_variables := variables |} ;;
  (if negb (N.eqb (resp_status response) 200)
   then console_error (resp_status response) (resp_statusText response)
   else ret tt) ;;;
  data <- response_json response ;;
  ret data.

Definition get (url : string) (rgsUrl : value) : IO value :=
  host <- lift (ToString Number_toString rgsUrl) ;;
  response <- fetcher fetch {| fo_fetch := None;
                               fo_method := GET;
                               fo_endpoint := "https://" ++ host ++ url;
                               fo_variables := VUndefined |} ;;
  (if negb (N.eqb (resp_status response) 200)
   then console_error (resp_status response) (resp_statusText response)
   else ret tt) ;;;
  data <- response_json response ;;
  ret data.

(** The operations of the earlier copy take everything from their
    options: nothing is read from the page and nothing is checked. *)

Definition requestAuthenticate (options : AuthenticateOptions) : IO value :=
  post "/wallet/authenticate" (of_string (auth_rgsUrl options))
    (VObj [("sessionID", of_string (auth_sessionID options));
           ("language", of_string (auth_language options))]).

Definition requestEndRound (options : EndRoundOptions) : IO value :=
  post "/wallet/end-round" (of_string (endround_rgsUrl options))
    (VObj [("sessionID", of_string (endround_sessionID options))]).

Definition requestEndEvent (options : EndEventOptions) : IO value :=
  event <- lift (ToString Number_toString (of_number (event_eventIndex options))) ;;
  post "/bet/event" (of_string (event_rgsUrl options))
    (VObj [("sessionID", of_string (event_sessionID options));
           ("event", VStr event)]).

Definition requestForceResult (options : ForceResultOptions) : IO value :=
  post "/game/search" (of_string (force_rgsUrl options))
    (VObj [("mode", of_string (force_mode options));
           ("search", force_search options)]).

Definition requestBet (options : BetOptions) : IO value :=
  post "/wallet/play" (of_string (bet_rgsUrl options))
    (VObj [("mode", of_string (bet_mode options));
           ("currency", of_string (bet_currency options));
           ("sessionID", of_string (bet_sessionID options));
           ("amount", VNum (to_number (bet_amount options) * API_AMOUNT_MULTIPLIER)%float)]).

Definition requestBalance (options : BalanceOptions) : IO value :=
  post "/wallet/balance" (of_string (balance_rgsUrl options))
    (VObj [("sessionID", of_string (balance_sessionID options))]).

(** A call of the earlier copy. Its options are not optional: without
    them the first property read, [options.rgsUrl], raises. *)
Definition invoke (c : call) : IO value :=
  let no_options :=
    throw (TypeError "Cannot read properties of undefined (reading 'rgsUrl')") in
  match c with
  | Authenticate (Some o) => requestAuthenticate o
  | Bet o => requestBet o
  | EndRound (Some o) => requestEndRound o
  | EndEvent o => requestEndEvent o
  | ForceResult o => requestForceResult o
  | Balance (Some o) => requestBalance o
  | Authenticate None | EndRound None | Balance None
  | BetWithoutOptions | EndEventWithoutOptions | ForceResultWithoutOptions => no_options
  end.

End Client.
End Legacy.

(** ** Reading a call and a request *)

(** The value of the page parameter [name]. *)
Definition ambient (name : string) (w : world) : value :=
  URLSearchParams_get name (location_search w).

Definition explicit_sessionID (c : call) : value :=
  match c with
  | Authenticate o => optional o auth_sessionID
  | Bet o => of_string (bet_sessionID o)
  | EndRound o => optional o endround_sessionID
  | EndEvent o => of_string (event_sessionID o)
  | ForceResult _ => VUndefined
  | Balance o => optional o balance_sessionID
  | BetWithoutOptions | EndEventWithoutOptions | ForceResultWithoutOptions => VUndefined
  end.

Definition explicit_rgsUrl (c : call) : value :=
  match c with
  | Authenticate o => optional o auth_rgsUrl
  | Bet o => of_string (bet_rgsUrl o)
  | EndRound o => optional o endround_rgsUrl
  | EndEvent o => of_string (event_rgsUrl o)
  | ForceResult o => of_string (force_rgsUrl o)
  | Balance o => optional o balance_rgsUrl
  | BetWithoutOptions | EndEventWithoutOptions | ForceResultWithoutOptions => VUndefined
  end.

(** [requestForceResult] is the one operation without a session. *)
Definition uses_sessionID (c : call) : bool :=
  match c with
  | ForceResult _ | ForceResultWithoutOptions => false
  | _ => true
  end.

(** Whether the options of a call can be read: always, but for the three
    operations with a required options parameter called without one. *)
Definition options_readable (c : call) : bool :=
  match c with
  | BetWithoutOptions | EndEventWithoutOptions | ForceResultWithoutOptions => false
  | _ => true
  end.

Definition path_of (c : call) : string :=
  match c with
  | Authenticate _ => "/wallet/authenticate"
  | Bet _ | BetWithoutOptions => "/wallet/play"
  | EndRound _ => "/wallet/end-round"
  | EndEvent _ | EndEventWithoutOptions => "/bet/event"
  | ForceResult _ | ForceResultWithoutOptions => "/game/search"
  | Balance _ => "/wallet/balance"
  end.

Definition resolved_sessionID (c : call) (w : world) : value :=
  js_or (explicit_sessionID c) (ambient "sessionID" w).

Definition resolved_rgsUrl (c : call) (w : world) : value :=
  js_or (explicit_rgsUrl c) (ambient "rgs_url" w).

(** The property [name] of the body of a request. *)
Definition body_field (name : string) (r : request) : option value :=
  match req_body r with
  | Some (VObj props) => lookup name props
  | _ => None
  end.

Definition wire_amount (r : request) : option value := body_field "amount" r.

(** The string form of a value that has one. *)
Definition text (Number_toString : float -> string) (v : value) : string :=
  match ToString Number_toString v with
  | Resolved s => s
  | Rejected _ => ""
  end.

(** The request [post] hands to [fetch], for a host that has a string
    form. *)
Definition post_request (Number_toString : float -> string)
    (url : string) (rgsUrl : value) (variables : value) : request :=
  {| req_url := "https://" ++ text Number_toString rgsUrl ++ url;
     req_method := POST;
     req_headers := [("Content-Type", "application/json")];
     req_body := JSON_stringify variables |}.

Definition sent (r : request) (w : world) : world :=
  {| window_defined := window_defined w;
        location_search := location_search w;
     network := (network w ++ [r])%list;
     console := console w |}.

(** Whether the options object of a call is there. *)
Definition has_options (c : call) : bool :=
  match c with
  | Authenticate None | EndRound None | Balance None
  | BetWithoutOptions | EndEventWithoutOptions | ForceResultWithoutOptions => false
  | _ => true
  end.

(** The variables and the request of a call of the earlier copy. *)
Definition legacy_variables (Number_toString : float -> string) (c : call) : value :=
  match c with
  | Authenticate o =>
      VObj [("sessionID", explicit_sessionID c);
            ("language", optional o auth_language)]
  | Bet o =>
      VObj [("mode", of_string (bet_mode o));
            ("currency", of_string (bet_currency o));
            ("sessionID", explicit_sessionID c);
            ("amount", VNum (to_number (bet_amount o) * API_AMOUNT_MULTIPLIER)%float)]
  | EndRound _ => VObj [("sessionID", explicit_sessionID c)]
  | EndEvent o =>
      VObj [("sessionID", explicit_sessionID c);
            ("event", VStr (text Number_toString (of_number (event_eventIndex o))))]
  | ForceResult o =>
      VObj [("mode", of_string (force_mode o)); ("search", force_search o)]
  | Balance _ => VObj [("sessionID", explicit_sessionID c)]
  | BetWithoutOptions | EndEventWithoutOptions | ForceResultWithoutOptions => VUndefined
  end.

Definition legacy_request (Number_toString : float -> string) (c : call) : request :=
  post_request Number_toString (path_of c) (explicit_rgsUrl c)
    (legacy_variables Number_toString c).

(** A call that names everything itself: session (where it has one),
    host, and language or currency where the operation sends one. *)
Definition fully_explicit (c : call) : bool :=
  (negb (uses_sessionID c) || truthy (explicit_sessionID c))
  && truthy (explicit_rgsUrl c)
  && match c with
     | Authenticate o => truthy (optional o auth_language)
     | Bet o => truthy (of_string (bet_currency o))
     | _ => true
     end.

(** The request [get] hands to [fetch], for a host that has a string
    form. *)
Definition get_request (Number_toString : float -> string)
    (url : string) (rgsUrl : value) : request :=
  {| req_url := "https://" ++ text Number_toString rgsUrl ++ url;
     req_method := GET;
     req_headers := [("Content-Type", "application/json")];
     req_body := None |}.

(** ** The description of the operation layer, in its own words *)

Module Spec.

(** Precedence of the configuration resolver: the explicit argument wins,
    otherwise the ambient source; an empty explicit argument counts as
    none. *)
Definition resolve (explicit from_ambient : value) : value :=
  match explicit with
  | VStr s => if is_empty s then from_ambient else VStr s
  | _ => from_ambient
  end.

(** The ambient value of a parameter that has a default. *)
Definition ambient_or (name : string) (default : string) (w : world) : value :=
  match lookup name (location_search w) with
  | Some s => if is_empty s then VStr default else VStr s
  | None => VStr default
  end.

(** The amount normalizer: multiply by the scale and round to the nearest
    integer; [None], the failure [InvalidAmount], when the amount is
    negative or not finite. *)
Definition toWireAmount (x : float) : option Z :=
  if is_finite x && negb (x <? 0)%float
  then round_to_nearest (x * API_AMOUNT_MULTIPLIER)%float
  else None.


End Spec.

(** An explicit empty string replaced by an omitted argument, in each
    configuration field of a call. *)
Definition omit (o : option string) : option string :=
  match o with
  | Some s => if is_empty s then None else Some s
  | None => None
  end.

Definition omit_empty (c : call) : call :=
  match c with
  | Authenticate o =>
      Authenticate
        (option_map (fun x => {| auth_sessionID := omit (auth_sessionID x);
                                 auth_rgsUrl := omit (auth_rgsUrl x);
                                 auth_language := omit (auth_language x) |}) o)
  | Bet x =>
      Bet {| bet_amount := bet_amount x;
             bet_mode := bet_mode x;
             bet_currency := omit (bet_currency x);
             bet_sessionID := omit (bet_sessionID x);
             bet_rgsUrl := omit (bet_rgsUrl x) |}
  | EndRound o =>
      EndRound
        (option_map (fun x => {| endround_sessionID := omit (endround_sessionID x);
                                 endround_rgsUrl := omit (endround_rgsUrl x) |}) o)
  | EndEvent x =>
      EndEvent {| event_eventIndex := event_eventIndex x;
                  event_sessionID := omit (event_sessionID x);
                  event_rgsUrl := omit (event_rgsUrl x) |}
  | ForceResult x =>
      ForceResult {| force_mode := force_mode x;
                     force_search := force_search x;
                     force_rgsUrl := omit (force_rgsUrl x) |}
  | Balance o =>
      Balance
        (option_map (fun x => {| balance_sessionID := omit (balance_sessionID x);
                                 balance_rgsUrl := omit (balance_rgsUrl x) |}) o)
  | BetWithoutOptions => BetWithoutOptions
  | EndEventWithoutOptions => EndEventWithoutOptions
  | ForceResultWithoutOptions => ForceResultWithoutOptions
  end.

(** ** Test doubles *)

Module Mock.

(** A transport that answers every request with the same response. *)
Definition answers (status : N) (statusText : string) (json : option value)
    : request -> outcome response :=
  fun _ => Resolved {| resp_status := status;
                       resp_statusText := statusText;
                       resp_json := json |}.

(** Digits for whole numbers are all the examples need. *)
Definition Number_toString (x : float) : string :=
  match float_integer x with
  | Some (Z.neg p) => "-" ++ NilZero.string_of_uint (Pos.to_uint p)
  | Some z => NilZero.string_of_uint (N.to_uint (Z.to_N z))
  | None => "NaN"
  end.

Definition insufficient_balance : value :=
  VObj [("status", VObj [("statusCode", VStr "ERR_IPB")])].

(** A page without query string, and one with a session and a host. *)
Definition blank_page : world :=
  {| window_defined := true; location_search := []; network := []; console := [] |}.

Definition game_page : world :=
  {| window_defined := true;
     location_search := [("sessionID", "B"); ("rgs_url", "h")];
     network := [];
     console := [] |}.

Definition french_page : world :=
  {| window_defined := true;
     location_search := [("lang", "fr")];
     network := [];
     console := [] |}.

(** A page whose URL names the host and no session. *)
Definition host_page : world :=
  {| window_defined := true;
     location_search := [("rgs_url", "h")];
     network := [];
     console := [] |}.

(** A Node.js process: no [window]. *)
Definition node_process : world :=
  {| window_defined := false; location_search := []; network := []; console := [] |}.

Definition bet (amount : option float) (mode sessionID rgsUrl : option string) : BetOptions :=
  {| bet_amount := amount;
     bet_mode := mode;
     bet_currency := None;
     bet_sessionID := sessionID;
     bet_rgsUrl := rgsUrl |}.

Definition ok : request -> outcome response := answers 200 "OK" (Some insufficient_balance).

Definition server_error (json : option value) : request -> outcome response :=
  answers 500 "Internal Server Error" json.

Definition balance_request : request :=
  {| req_url := "https://h/wallet/balance";
     req_method := POST;
     req_headers := [("Content-Type", "application/json")];
     req_body := Some (VObj [("sessionID", VStr "B")]) |}.

(** A transport that cannot reach the server. *)
Definition unreachable : request -> outcome response :=
  fun _ => Rejected (FetchFailure "Failed to fetch").

Definition event_request : request :=
  {| req_url := "https://h/bet/event";
     req_method := POST;
     req_headers := [("Content-Type", "application/json")];
     req_body := Some (VObj [("sessionID", VStr "B"); ("event", VStr "7")]) |}.

Definition search_request : request :=
  {| req_url := "https://h/game/search";
     req_method := POST;
     req_headers := [("Content-Type", "application/json")];
     req_body := Some (VObj [("mode", VStr "base");
                             ("search", VObj [("symbol", VStr "BONUS")])]) |}.

Definition search_bonus : ForceResultOptions :=
  {| force_mode := Some "base";
     force_search := VObj [("bookID", VUndefined); ("symbol", VStr "BONUS")];
     force_rgsUrl := None |}.

Definition explicit_balance : BalanceOptions :=
  {| balance_sessionID := Some "B"; balance_rgsUrl := Some "h" |}.

(** The explicit arguments [{sessionID: "A"}], and what authenticating
    with them sends from the page with session "B" and host "h". *)
Definition session_A : AuthenticateOptions :=
  {| auth_sessionID := Some "A"; auth_rgsUrl := None; auth_language := None |}.

Definition authenticate_A_request : request :=
  {| req_url := "https://h/wallet/authenticate";
     req_method := POST;
     req_headers := [("Content-Type", "application/json")];
     req_body := Some (VObj [("sessionID", VStr "A"); ("language", VStr "en")]) |}.

End Mock.

(** ** One description for the six operations *)

Definition logged (status : N) (statusText : string) (w : world) : world :=
  {| window_defined := window_defined w;
        location_search := location_search w;
     network := network w;
     console := (console w ++ [(status, statusText)])%list |}.

(** How [post] settles once [fetch] has answered. *)
Definition settle (Number_toString : float -> string) (answer : outcome response)
    (w : world) : outcome value * world :=
  match answer with
  | Rejected e => (Rejected e, w)
  | Resolved resp =>
      if N.eqb (resp_status resp) 200 then
        (match resp_json resp with
         | Some v => Resolved v
         | None => Rejected SyntaxError
         end, w)
      else
        (match get_property (match resp_json resp with
                             | Some d => d
                             | None => VObj []
                             end) "message" with
         | Resolved m =>
             match api_error_message Number_toString resp m with
             | Resolved text => Rejected (Error text)
             | Rejected e => Rejected e
             end
         | Rejected e => Rejected e
         end, logged (resp_status resp) (resp_statusText resp) w)
  end.

(** The variables an operation posts. *)
Definition variables_of (Number_toString : float -> string) (c : call) (w : world) : value :=
  match c with
  | Authenticate o =>
      VObj [("sessionID", resolved_sessionID c w);
            ("language", js_or (optional o auth_language)
                           (js_or (ambient "lang" w) (VStr "en")))]
  | Bet o =>
      VObj [("mode", of_string (bet_mode o));
            ("currency", js_or (of_string (bet_currency o))
                           (js_or (ambient "currency" w) (VStr "USD")));
            ("sessionID", resolved_sessionID c w);
            ("amount", VNum (to_number (bet_amount o) * API_AMOUNT_MULTIPLIER)%float)]
  | EndRound _ => VObj [("sessionID", resolved_sessionID c w)]
  | EndEvent o =>
      VObj [("sessionID", resolved_sessionID c w);
            ("event", VStr (text Number_toString (of_number (event_eventIndex o))))]
  | ForceResult o =>
      VObj [("mode", of_string (force_mode o)); ("search", force_search o)]
  | Balance _ => VObj [("sessionID", resolved_sessionID c w)]
  | BetWithoutOptions | EndEventWithoutOptions | ForceResultWithoutOptions => VUndefined
  end.

(** The request an operation sends once its session and host are found. *)
Definition request_of (Number_toString : float -> string) (c : call) (w : world) : request :=
  post_request Number_toString (path_of c) (resolved_rgsUrl c w)
    (variables_of Number_toString c w).

(** The two checks every operation makes before it posts. *)
Definition missing_config (c : call) (w : world) : option string :=
  if uses_sessionID c && negb (truthy (resolved_sessionID c w)) then Some sessionID_required
  else if negb (truthy (resolved_rgsUrl c w)) then Some rgsUrl_required
  else None.

(** What stops a call before the network: no [window], no options to
    read, or a failed check. *)
Definition refusal (c : call) (w : world) : option failure :=
  if negb (window_defined w) then Some (ReferenceError "window is not defined")
  else
    match c with
    | BetWithoutOptions | EndEventWithoutOptions =>
        Some (TypeError "Cannot read properties of undefined (reading 'sessionID')")
    | ForceResultWithoutOptions =>
        Some (TypeError "Cannot read properties of undefined (reading 'rgsUrl')")
    | _ => option_map Error (missing_config c w)
    end.

(** ** Amounts of two decimals *)





(** * Properties *)

Section Properties.

Variable fetch : request -> outcome response.
Variable Number_toString : float -> string.

Lemma settle_network (answer : outcome response) (w : world) :
  network (snd (settle Number_toString answer w)) = network w.
Proof.
  unfold settle.
  destruct answer as [resp | e]; [ | reflexivity ].
  destruct (N.eqb (resp_status resp) 200); reflexivity.
Qed.

Lemma tail_grows {A : Type} (l : list A) (a : A) : (l ++ [a])%list <> l.
Proof.
  intro H. apply (f_equal (@length A)) in H.
  rewrite length_app in H. cbn in H. lia.
Qed.

Lemma js_or_omit (o : option string) (b : value) :
  js_or (of_string (omit o)) b = js_or (of_string o) b.
Proof. destruct o as [[ | a s] | ]; reflexivity. Qed.

Lemma js_or_resolve (o : option string) (b : value) :
  js_or (of_string o) b = Spec.resolve (of_string o) b.
Proof. destruct o as [[ | a s] | ]; reflexivity. Qed.

Lemma optional_resolve {O : Type} (o : option O) (field : O -> option string) (b : value) :
  js_or (optional o field) b = Spec.resolve (optional o field) b.
Proof. destruct o as [x | ]; [ apply js_or_resolve | reflexivity ]. Qed.

Lemma explicit_sessionID_resolve (c : call) (w : world) :
  resolved_sessionID c w = Spec.resolve (explicit_sessionID c) (ambient "sessionID" w).
Proof.
  unfold resolved_sessionID.
  destruct c; cbn [explicit_sessionID];
    first [ apply optional_resolve | apply js_or_resolve | reflexivity ].
Qed.

Lemma explicit_rgsUrl_resolve (c : call) (w : world) :
  resolved_rgsUrl c w = Spec.resolve (explicit_rgsUrl c) (ambient "rgs_url" w).
Proof.
  unfold resolved_rgsUrl.
  destruct c; cbn [explicit_rgsUrl];
    first [ apply optional_resolve | apply js_or_resolve | reflexivity ].
Qed.

Lemma ambient_or_default (name default : string) (w : world) :
  is_empty default = false ->
  js_or (ambient name w) (VStr default) = Spec.ambient_or name default w.
Proof.
  intros Hd. unfold ambient, URLSearchParams_get, Spec.ambient_or.
  destruct (lookup name (location_search w)) as [[ | a s] | ]; reflexivity.
Qed.

(** A configuration value that passes the check [!x] is a string, and a
    non-empty one. *)
Lemma truthy_resolve_string (explicit : value) (name : string) (w : world) :
  (exists o, explicit = of_string o) ->
  truthy (Spec.resolve explicit (ambient name w)) = true ->
  exists s, Spec.resolve explicit (ambient name w) = VStr s /\ is_empty s = false.
Proof.
  intros [o ->]. unfold ambient, URLSearchParams_get.
  destruct o as [[ | a s] | ]; cbn;
    destruct (lookup name (location_search w)) as [[ | b t] | ]; cbn;
    try discriminate; intros _; eexists; split; reflexivity.
Qed.

Lemma explicit_sessionID_of_string (c : call) :
  exists o, explicit_sessionID c = of_string o.
Proof.
  destruct c as [[x | ] | x | [x | ] | x | x | [x | ] | | | ]; cbn;
    first [ now eexists | now exists None ].
Qed.

Lemma explicit_rgsUrl_of_string (c : call) :
  exists o, explicit_rgsUrl c = of_string o.
Proof.
  destruct c as [[x | ] | x | [x | ] | x | x | [x | ] | | | ]; cbn;
    first [ now eexists | now exists None ].
Qed.

Lemma ambient_or_string (name default : string) (w : world) :
  is_empty default = false ->
  exists s, Spec.ambient_or name default w = VStr s /\ is_empty s = false.
Proof.
  intros Hd. unfold Spec.ambient_or.
  destruct (lookup name (location_search w)) as [[ | a s] | ];
    eexists; split; try reflexivity; assumption.
Qed.

Lemma resolve_default_string (o : option string) (name default : string) (w : world) :
  is_empty default = false ->
  exists s, Spec.resolve (of_string o) (Spec.ambient_or name default w) = VStr s
            /\ is_empty s = false.
Proof.
  intros Hd. destruct o as [[ | a s] | ]; cbn;
    try apply (ambient_or_string _ _ _ Hd).
  eexists; split; reflexivity.
Qed.

(** A session or host, as an operation resolves it, is a string,
    [undefined] or [null]: it has a string form. *)
Lemma resolved_has_text (o : option string) (name : string) (w : world) :
  exists h,
    ToString Number_toString (js_or (of_string o) (ambient name w)) = Resolved h.
Proof.
  unfold ambient, URLSearchParams_get, js_or.
  destruct o as [[ | a s] | ]; cbn;
    destruct (lookup name (location_search w)); cbn; eexists; reflexivity.
Qed.

Lemma resolved_rgsUrl_has_text (c : call) (w : world) :
  exists h, ToString Number_toString (resolved_rgsUrl c w) = Resolved h.
Proof.
  unfold resolved_rgsUrl.
  destruct (explicit_rgsUrl_of_string c) as [o ->]. apply resolved_has_text.
Qed.

Lemma post_settles (url : string) (rgsUrl variables : value) (w : world) :
  (exists h, ToString Number_toString rgsUrl = Resolved h) ->
  post fetch Number_toString url rgsUrl variables w =
  settle Number_toString
    (fetch (post_request Number_toString url rgsUrl variables))
    (sent (post_request Number_toString url rgsUrl variables) w).
Proof.
  intros [h Hh].
  unfold post, bind, lift, fetcher, settle, post_request, sent, text.
  rewrite Hh. cbn.
  destruct (fetch _) as [resp | e]; [ | reflexivity ].
  destruct (N.eqb (resp_status resp) 200); cbn.
  - unfold response_json, bind, ret, throw.
    destruct (resp_json resp); reflexivity.
  - unfold catch, response_json, bind, ret, throw, lift, console_error, logged; cbn.
    destruct (resp_json resp) as [d | ]; cbn.
    + destruct (get_property d "message") as [m | e]; [ | reflexivity ].
      destruct (api_error_message Number_toString resp m); reflexivity.
    + destruct (api_error_message Number_toString resp VUndefined); reflexivity.
Qed.

(** Each operation is: the read of [window], the read of its options, two
    checks, then [post] of its variables. *)
Lemma invoke_run (c : call) (w : world) :
  invoke fetch Number_toString c w =
  match refusal c w with
  | Some e => (Rejected e, w)
  | None =>
      settle Number_toString (fetch (request_of Number_toString c w))
        (sent (request_of Number_toString c w) w)
  end.
Proof.
  unfold refusal, missing_config, request_of.
  pose proof (resolved_rgsUrl_has_text c w) as Hhost.
  unfold resolved_rgsUrl, resolved_sessionID, ambient in *.
  destruct c as [o | o | o | o | o | o | | | ]; cbn -[post] in *;
    unfold requestAuthenticate, requestBet, requestEndRound, requestEndEvent,
      requestForceResult, requestBalance, without_options, bind, getUrlParams, throw;
    destruct (window_defined w); cbn -[post truthy js_or]; try reflexivity;
    repeat match goal with
           | |- context [negb (truthy ?v)] => destruct (truthy v); cbn -[post truthy js_or]
           end;
    try reflexivity; try (now apply post_settles).
  destruct (event_eventIndex o); cbn -[post]; now apply post_settles.
Qed.

Lemma missing_config_None (c : call) (w : world) :
  missing_config c w = None <->
  (uses_sessionID c = false \/ truthy (resolved_sessionID c w) = true)
  /\ truthy (resolved_rgsUrl c w) = true.
Proof.
  unfold missing_config.
  destruct (uses_sessionID c), (truthy (resolved_sessionID c w)),
    (truthy (resolved_rgsUrl c w)); cbn; intuition congruence.
Qed.

(** A call gets through to [post] exactly where [window] exists, its
    options can be read, and session and host are found. *)
Lemma refusal_None (c : call) (w : world) :
  refusal c w = None <->
  window_defined w = true /\ options_readable c = true
  /\ (uses_sessionID c = false \/ truthy (resolved_sessionID c w) = true)
  /\ truthy (resolved_rgsUrl c w) = true.
Proof.
  unfold refusal. rewrite <- missing_config_None.
  destruct (window_defined w); cbn; [ | intuition congruence ].
  destruct c; cbn [options_readable option_map];
    try match goal with
        | |- context [option_map Error (missing_config ?c w)] =>
            destruct (missing_config c w); cbn [option_map]
        end;
    intuition congruence.
Qed.

(** In a page, a call whose options can be read is stopped by a failed
    check and by nothing else. *)
Lemma refusal_in_page (c : call) (w : world) :
  window_defined w = true -> options_readable c = true ->
  refusal c w = option_map Error (missing_config c w).
Proof.
  unfold refusal. intros -> Hc. cbn.
  destruct c; try discriminate; reflexivity.
Qed.

Lemma invoke_refused (c : call) (w : world) (e : failure) :
  refusal c w = Some e ->
  invoke fetch Number_toString c w = (Rejected e, w).
Proof. intros H. rewrite invoke_run, H. reflexivity. Qed.

Lemma invoke_local (c : call) (w : world) (message : string) :
  window_defined w = true -> options_readable c = true ->
  missing_config c w = Some message ->
  invoke fetch Number_toString c w = (Rejected (Error message), w).
Proof.
  intros Hw Hc H. apply invoke_refused.
  now rewrite (refusal_in_page _ _ Hw Hc), H.
Qed.

Lemma invoke_sends (c : call) (w : world) :
  refusal c w = None ->
  network (snd (invoke fetch Number_toString c w))
  = (network w ++ [request_of Number_toString c w])%list.
Proof. intros H. rewrite invoke_run, H, settle_network. reflexivity. Qed.

(** A call that reached the transport was not refused, and what it sent
    is [request_of]. *)
Lemma invoke_reached (c : call) (w : world) (r : request) :
  network (snd (invoke fetch Number_toString c w)) = (network w ++ [r])%list ->
  refusal c w = None /\ r = request_of Number_toString c w.
Proof.
  intros H. destruct (refusal c w) as [e | ] eqn:E.
  - rewrite (invoke_refused _ _ _ E) in H. cbn in H.
    symmetry in H. now apply tail_grows in H.
  - rewrite (invoke_sends _ _ E) in H.
    apply app_inj_tail in H. destruct H as [_ H]. now split.
Qed.

(** What reached the transport passed the two checks. *)
Lemma invoke_reached_config (c : call) (w : world) (r : request) :
  network (snd (invoke fetch Number_toString c w)) = (network w ++ [r])%list ->
  missing_config c w = None /\ r = request_of Number_toString c w.
Proof.
  intros H. destruct (invoke_reached _ _ _ H) as [Href Hr].
  split; [ | assumption ].
  apply missing_config_None. apply refusal_None in Href. tauto.
Qed.

(** With a status other than 200 and a body that is not [null], the
    failure is the [Error] that carries the status, where the message of
    the body has a string form. *)
Lemma status_not_200_fails (c : call) (w : world) (r : request) (resp : response) :
  network (snd (invoke fetch Number_toString c w)) = (network w ++ [r])%list ->
  fetch r = Resolved resp ->
  resp_status resp <> 200%N ->
  resp_json resp <> Some VNull ->
  resp_json resp <> Some VUndefined ->
  exists message,
    fst (invoke fetch Number_toString c w)
    = match api_error_message Number_toString resp message with
      | Resolved text => Rejected (Error text)
      | Rejected e => Rejected e
      end
    /\ (resp_json resp = None -> message = VUndefined).
Proof.
  intros Hnet Hfetch Hstatus Hnull Hundef.
  destruct (invoke_reached _ _ _ Hnet) as [Hcfg ->].
  rewrite invoke_run, Hcfg. unfold settle. rewrite Hfetch.
  apply N.eqb_neq in Hstatus. rewrite Hstatus.
  destruct (resp_json resp) as [d | ]; cbn [fst].
  - destruct d; try congruence; cbn [get_property];
      try (eexists; split; [ reflexivity | discriminate ]).
    destruct (lookup "message" props);
      eexists; (split; [ reflexivity | discriminate ]).
  - exists VUndefined. split; reflexivity.
Qed.

(** The earlier copy of [post] does not fail on a status other than 200:
    it returns the decoded body. *)
Lemma legacy_post_ignores_status (url : string) (rgsUrl variables : value)
    (w : world) (resp : response) (v : value) :
  (exists h, ToString Number_toString rgsUrl = Resolved h) ->
  fetch (post_request Number_toString url rgsUrl variables) = Resolved resp ->
  resp_json resp = Some v ->
  fst (Legacy.post fetch Number_toString url rgsUrl variables w) = Resolved v.
Proof.
  intros [h Hh] Hfetch Hjson.
  unfold post_request, text in Hfetch. rewrite Hh in Hfetch.
  unfold Legacy.post, bind, lift, fetcher. rewrite Hh.
  cbn [fo_fetch fo_method fo_endpoint fo_variables].
  rewrite Hfetch.
  destruct (negb (N.eqb (resp_status resp) 200)); cbn;
    unfold response_json; rewrite Hjson; reflexivity.
Qed.

(** C3. Whatever the operation, when the transport answers the request
    with status 200 and a body that decodes to [v], the operation resolves
    with [v] itself: no in-band status code, [ERR_IPB] or any other, is
    looked at or turned into a failure. *)
Theorem status_200_returns_the_body (c : call) (w : world) (r : request)
    (resp : response) (v : value) :
  network (snd (invoke fetch Number_toString c w)) = (network w ++ [r])%list ->
  fetch r = Resolved resp ->
  resp_status resp = 200%N ->
  resp_json resp = Some v ->
  fst (invoke fetch Number_toString c w) = Resolved v.
Proof.
  intros Hnet Hfetch Hstatus Hjson.
  destruct (invoke_reached _ _ _ Hnet) as [Hcfg ->].
  rewrite invoke_run, Hcfg. unfold settle.
  rewrite Hfetch, Hstatus, Hjson. reflexivity.
Qed.

(** C4, at the input where the code departs from it. Whatever the
    operation, when the transport answers with a status other than 200 and
    the body is the JSON text [null], the operation does not fail with the
    error that carries the status: reading [message] of the decoded [null]
    raises a [TypeError], and that is what the caller gets. *)
Theorem null_error_body_raises_TypeError (c : call) (w : world) (r : request)
    (resp : response) :
  network (snd (invoke fetch Number_toString c w)) = (network w ++ [r])%list ->
  fetch r = Resolved resp ->
  resp_status resp <> 200%N ->
  resp_json resp = Some VNull ->
  fst (invoke fetch Number_toString c w)
  = Rejected (TypeError "Cannot read properties of null (reading 'message')").
Proof.
  intros Hnet Hfetch Hstatus Hjson.
  destruct (invoke_reached _ _ _ Hnet) as [Hcfg ->].
  rewrite invoke_run, Hcfg. unfold settle. rewrite Hfetch.
  apply N.eqb_neq in Hstatus. rewrite Hstatus, Hjson. reflexivity.
Qed.

(** C6, as the code has it. In a page, an operation that takes a session
    (all but [requestForceResult], which has no such argument) and finds
    none, neither in its options nor in the page URL, fails with the error
    that names [sessionID]; an operation that finds no host fails with the
    error that names the first missing field; in both cases the world is
    left as it was, so the transport was not called. Once session and host
    are found the call reaches the transport: language and currency cannot
    make it fail. *)
Theorem missing_config_fails_before_network (c : call) (w : world) :
  window_defined w = true ->
  options_readable c = true ->
  (uses_sessionID c = true ->
   truthy (explicit_sessionID c) = false ->
   truthy (ambient "sessionID" w) = false ->
   invoke fetch Number_toString c w = (Rejected (Error sessionID_required), w))
  /\ (truthy (explicit_rgsUrl c) = false ->
      truthy (ambient "rgs_url" w) = false ->
      invoke fetch Number_toString c w
      = (Rejected (Error (if uses_sessionID c && negb (truthy (resolved_sessionID c w))
                          then sessionID_required else rgsUrl_required)), w))
  /\ ((uses_sessionID c = false \/ truthy (resolved_sessionID c w) = true) ->
      truthy (resolved_rgsUrl c w) = true ->
      exists r,
        network (snd (invoke fetch Number_toString c w)) = (network w ++ [r])%list).
Proof.
  intros Hw Hc. split; [ | split ].
  - intros Huses Hexplicit Hambient. apply (invoke_local _ _ _ Hw Hc).
    unfold missing_config, resolved_sessionID, js_or.
    rewrite Huses, Hexplicit, Hambient. reflexivity.
  - intros Hexplicit Hambient. apply (invoke_local _ _ _ Hw Hc).
    unfold missing_config.
    destruct (uses_sessionID c && negb (truthy (resolved_sessionID c w)));
      [ reflexivity | ].
    unfold resolved_rgsUrl, js_or. rewrite Hexplicit, Hambient. reflexivity.
  - intros Hsession Hhost. eexists. apply invoke_sends.
    apply refusal_None. tauto.
Qed.

(** C8, as the code has it. In a page, what stops a call before the
    network is a missing options object, where the operation requires one,
    or one of the two checks on session and host: a call that left the
    network untouched failed with the [TypeError] of the options read, with
    the error naming [sessionID] or with the one naming [rgsUrl]. A call
    whose options can be read and whose session and host are found sends
    its request, whether or not [amount], [mode] or [eventIndex] were
    given. *)
Theorem only_session_and_host_are_checked (c : call) (w : world) :
  window_defined w = true ->
  (network (snd (invoke fetch Number_toString c w)) = network w ->
   (options_readable c = false
    /\ exists property,
         invoke fetch Number_toString c w
         = (Rejected (TypeError ("Cannot read properties of undefined (reading '"
                                   ++ property ++ "')")), w))
   \/ (uses_sessionID c = true /\ truthy (resolved_sessionID c w) = false
       /\ invoke fetch Number_toString c w = (Rejected (Error sessionID_required), w))
   \/ (truthy (resolved_rgsUrl c w) = false
       /\ invoke fetch Number_toString c w = (Rejected (Error rgsUrl_required), w)))
  /\ (options_readable c = true ->
      (uses_sessionID c = false \/ truthy (resolved_sessionID c w) = true) ->
      truthy (resolved_rgsUrl c w) = true ->
      network (snd (invoke fetch Number_toString c w))
      = (network w ++ [request_of Number_toString c w])%list).
Proof.
  intros Hw. split.
  - intros Hnet. destruct (options_readable c) eqn:Hc.
    + right. destruct (missing_config c w) as [message | ] eqn:E.
      * pose proof (invoke_local _ _ _ Hw Hc E) as Hrun.
        unfold missing_config in E.
        destruct (uses_sessionID c) eqn:Huses,
          (truthy (resolved_sessionID c w)) eqn:Hsession; cbn in E;
          try (injection E as <-; left; now repeat split);
          (destruct (truthy (resolved_rgsUrl c w)) eqn:Hhost; cbn in E;
           [ discriminate | injection E as <-; right; now split ]).
      * assert (Href : refusal c w = None).
        { apply refusal_None. apply missing_config_None in E. tauto. }
        rewrite (invoke_sends _ _ Href) in Hnet. now apply tail_grows in Hnet.
    + left. split; [ reflexivity | ].
      destruct c; try discriminate;
        [ exists "sessionID" | exists "sessionID" | exists "rgsUrl" ];
        apply invoke_refused; unfold refusal; rewrite Hw; reflexivity.
  - intros Hc Hsession Hhost. apply invoke_sends.
    apply refusal_None. tauto.
Qed.

(** The body of the request of an operation, field by field. *)
Lemma body_of_request (c : call) (w : world) :
  options_readable c = true ->
  truthy (resolved_rgsUrl c w) = true ->
  (uses_sessionID c = false \/ truthy (resolved_sessionID c w) = true) ->
  (uses_sessionID c = true ->
   body_field "sessionID" (request_of Number_toString c w)
   = Some (Spec.resolve (explicit_sessionID c) (ambient "sessionID" w)))
  /\ (forall o, c = Authenticate o ->
      body_field "language" (request_of Number_toString c w)
      = Some (Spec.resolve (optional o auth_language) (Spec.ambient_or "lang" "en" w)))
  /\ (forall o, c = Bet o ->
      body_field "currency" (request_of Number_toString c w)
      = Some (Spec.resolve (of_string (bet_currency o))
                (Spec.ambient_or "currency" "USD" w))).
Proof.
  intros Hc Hhost Hsession.
  assert (Hsid : uses_sessionID c = true ->
                 exists s, resolved_sessionID c w = VStr s
                           /\ Spec.resolve (explicit_sessionID c) (ambient "sessionID" w) = VStr s).
  { intros Huses. destruct Hsession as [Hno | Hyes]; [ congruence | ].
    rewrite explicit_sessionID_resolve in *.
    destruct (truthy_resolve_string _ _ _ (explicit_sessionID_of_string c) Hyes)
      as [s [Hs _]].
    exists s. now split. }
  unfold request_of, post_request, body_field; cbn [req_body].
  split; [ | split ].
  - intros Huses. destruct (Hsid Huses) as [s [Hs ->]].
    destruct c as [o | o | o | o | o | o | | | ]; try discriminate;
      unfold variables_of; rewrite Hs.
    + rewrite optional_resolve, (ambient_or_default "lang" "en" w eq_refl).
      destruct o as [x | ]; cbn [optional];
        [ destruct (resolve_default_string (auth_language x) "lang" "en" w eq_refl)
            as [l [-> _]]
        | destruct (resolve_default_string None "lang" "en" w eq_refl)
            as [l [Hl _]]; cbn [of_string] in Hl; rewrite Hl ];
        reflexivity.
    + rewrite js_or_resolve, (ambient_or_default "currency" "USD" w eq_refl).
      destruct (resolve_default_string (bet_currency o) "currency" "USD" w eq_refl)
        as [k [-> _]].
      destruct (bet_mode o); reflexivity.
    + reflexivity.
    + reflexivity.
    + reflexivity.
  - intros o ->. destruct (Hsid eq_refl) as [s [Hs _]].
    unfold variables_of; rewrite Hs.
    rewrite optional_resolve, (ambient_or_default "lang" "en" w eq_refl).
    destruct o as [x | ]; cbn [optional];
      [ destruct (resolve_default_string (auth_language x) "lang" "en" w eq_refl)
          as [l [-> _]]
      | destruct (resolve_default_string None "lang" "en" w eq_refl)
          as [l [Hl _]]; cbn [of_string] in Hl; rewrite Hl ];
      reflexivity.
  - intros o ->. destruct (Hsid eq_refl) as [s [Hs _]].
    unfold variables_of; rewrite Hs.
    rewrite js_or_resolve, (ambient_or_default "currency" "USD" w eq_refl).
    destruct (resolve_default_string (bet_currency o) "currency" "USD" w eq_refl)
      as [k [-> _]].
    destruct (bet_mode o); reflexivity.
Qed.

(** Rounding leaves a whole number where it is. *)
Lemma float_integer_round (x : float) (z : Z) :
  float_integer x = Some z -> round_to_nearest x = Some z.
Proof.
  unfold float_integer, round_to_nearest.
  destruct (Prim2SF x) as [s | s | | s m e]; try discriminate; [ auto | ].
  set (sm := if s then Z.neg m else Z.pos m).
  destruct (0 <=? e)%Z eqn:He; [ auto | ].
  destruct (sm mod 2 ^ (- e) =? 0)%Z eqn:Hmod; [ | discriminate ].
  intros [= <-]. f_equal.
  apply Z.eqb_eq in Hmod. apply Z.leb_gt in He.
  assert (Hd : (0 < 2 ^ (- e))%Z) by (apply Z.pow_pos_nonneg; lia).
  pose proof (Z.div_mod sm (2 ^ (- e)) ltac:(lia)) as Hdiv.
  rewrite Hmod, Z.add_0_r in Hdiv.
  symmetry. apply Z.div_unique with (r := (2 ^ (- e))%Z); [ lia | ].
  rewrite Hdiv at 1. ring.
Qed.

Lemma float_integer_json_number (x : float) :
  float_integer (json_number x) = float_integer x.
Proof.
  unfold json_number, float_integer at 2.
  destruct (Prim2SF x) eqn:E; try reflexivity;
    unfold float_integer; rewrite E; reflexivity.
Qed.

Lemma float_integer_finite (x : float) (z : Z) :
  float_integer x = Some z -> is_finite x = true.
Proof.
  unfold float_integer, is_finite.
  destruct (Prim2SF x); try discriminate; reflexivity.
Qed.

Lemma wire_amount_of_bet (o : BetOptions) (w : world) :
  truthy (resolved_sessionID (Bet o) w) = true ->
  wire_amount (request_of Number_toString (Bet o) w)
  = Some (if is_finite (to_number (bet_amount o) * API_AMOUNT_MULTIPLIER)%float
          then VNum (json_number (to_number (bet_amount o) * API_AMOUNT_MULTIPLIER)%float)
          else VNull).
Proof.
  intros Hsession.
  rewrite explicit_sessionID_resolve in Hsession.
  destruct (truthy_resolve_string _ _ _ (explicit_sessionID_of_string (Bet o)) Hsession)
    as [s [Hs _]].
  unfold wire_amount, body_field, request_of, post_request; cbn [req_body].
  unfold variables_of. rewrite explicit_sessionID_resolve, Hs.
  rewrite js_or_resolve, (ambient_or_default "currency" "USD" w eq_refl).
  destruct (resolve_default_string (bet_currency o) "currency" "USD" w eq_refl)
    as [k [-> _]].
  destruct (bet_mode o); cbn;
    destruct (is_finite (to_number (bet_amount o) * API_AMOUNT_MULTIPLIER)%float);
    reflexivity.
Qed.

(** C1, as the code has it. In a page, a bet whose session and host are
    found is sent, whatever its amount: nothing is checked and nothing
    fails before the network. Where the product of the amount and
    [API_AMOUNT_MULTIPLIER] is a whole number, that number is the amount on
    the wire, and it is the rounded amount [round (x * 1_000_000)]. *)
Theorem bet_amount_is_scaled_not_validated (o : BetOptions) (w : world) :
  window_defined w = true ->
  truthy (resolved_sessionID (Bet o) w) = true ->
  truthy (resolved_rgsUrl (Bet o) w) = true ->
  network (snd (requestBet fetch Number_toString o w))
  = (network w ++ [request_of Number_toString (Bet o) w])%list
  /\ (forall (x : float) (z : Z),
        bet_amount o = Some x ->
        float_integer (x * API_AMOUNT_MULTIPLIER)%float = Some z ->
        wire_amount (request_of Number_toString (Bet o) w)
        = Some (VNum (json_number (x * API_AMOUNT_MULTIPLIER)%float))
        /\ float_integer (json_number (x * API_AMOUNT_MULTIPLIER)%float) = Some z
        /\ round_to_nearest (x * API_AMOUNT_MULTIPLIER)%float = Some z
        /\ (is_finite x = true -> (x <? 0)%float = false ->
            Spec.toWireAmount x = Some z)).
Proof.
  intros Hw Hsession Hhost. split.
  - change (requestBet fetch Number_toString o)
      with (invoke fetch Number_toString (Bet o)).
    apply invoke_sends. apply refusal_None. repeat split; auto.
  - intros x z Hx Hz. split; [ | split; [ | split ] ].
    + rewrite (wire_amount_of_bet _ _ Hsession), Hx. cbn [to_number].
      now rewrite (float_integer_finite _ _ Hz).
    + now rewrite float_integer_json_number.
    + now apply float_integer_round.
    + intros Hfinite Hsign.
      unfold Spec.toWireAmount. rewrite Hfinite, Hsign. cbn [andb negb].
      now apply float_integer_round.
Qed.

(** C2, as the code has it. In a page, a bet with a non-empty session
    [s], host [h] and currency [c] is one POST to [https://h/wallet/play]
    whose body holds [mode], [currency] and [sessionID] as given, and an
    [amount]; where the product of the amount and [API_AMOUNT_MULTIPLIER]
    is a whole number the amount is that number: 1.00 gives 1000000 and
    2.5 gives 2500000. *)
Theorem bet_request_on_the_wire (s h m c : string) (a : float) (w : world) :
  window_defined w = true ->
  is_empty s = false ->
  is_empty h = false ->
  is_empty c = false ->
  (exists amount,
     network (snd (requestBet fetch Number_toString
                     {| bet_amount := Some a;
                        bet_mode := Some m;
                        bet_currency := Some c;
                        bet_sessionID := Some s;
                        bet_rgsUrl := Some h |} w))
     = (network w
        ++ [{| req_url := "https://" ++ h ++ "/wallet/play";
               req_method := POST;
               req_headers := [("Content-Type", "application/json")];
               req_body :=
                 Some (VObj [("mode", VStr m);
                             ("currency", VStr c);
                             ("sessionID", VStr s);
                             ("amount", amount)]) |}])%list
     /\ (forall z,
           float_integer (a * API_AMOUNT_MULTIPLIER)%float = Some z ->
           amount = VNum (json_number (a * API_AMOUNT_MULTIPLIER)%float)
           /\ float_integer (json_number (a * API_AMOUNT_MULTIPLIER)%float) = Some z))
  /\ (1 * API_AMOUNT_MULTIPLIER = 1000000)%float
  /\ (2.5 * API_AMOUNT_MULTIPLIER = 2500000)%float.
Proof.
  intros Hw Hs Hh Hc. split; [ | split; reflexivity ].
  destruct s as [ | s0 s]; [ discriminate | ].
  destruct h as [ | h0 h]; [ discriminate | ].
  destruct c as [ | c0 c]; [ discriminate | ].
  exists (if is_finite (a * API_AMOUNT_MULTIPLIER)%float
          then VNum (json_number (a * API_AMOUNT_MULTIPLIER)%float)
          else VNull).
  split.
  - match goal with
    | |- network (snd (requestBet _ _ ?o _)) = _ =>
        change (requestBet fetch Number_toString o)
          with (invoke fetch Number_toString (Bet o));
        rewrite (invoke_sends (Bet o) w);
          [ | apply refusal_None; repeat split; auto ]
    end.
    f_equal. f_equal.
    unfold request_of, post_request, variables_of; cbn.
    destruct (is_finite (a * API_AMOUNT_MULTIPLIER)%float); reflexivity.
  - intros z Hz. rewrite (float_integer_finite _ _ Hz).
    split; [ reflexivity | now rewrite float_integer_json_number ].
Qed.

(** C5, as the code has it. In the request an operation sends, host,
    session, language and currency are each the explicit argument when
    that is a non-empty string, and otherwise (omitted, or empty) the
    value of the page URL, with "en" and "USD" where the URL has none. *)
Theorem explicit_wins_unless_omitted_or_empty (c : call) (w : world) (r : request) :
  network (snd (invoke fetch Number_toString c w)) = (network w ++ [r])%list ->
  (exists h, Spec.resolve (explicit_rgsUrl c) (ambient "rgs_url" w) = VStr h
             /\ req_url r = "https://" ++ h ++ path_of c)
  /\ (uses_sessionID c = true ->
      body_field "sessionID" r
      = Some (Spec.resolve (explicit_sessionID c) (ambient "sessionID" w)))
  /\ (forall o, c = Authenticate o ->
      body_field "language" r
      = Some (Spec.resolve (optional o auth_language) (Spec.ambient_or "lang" "en" w)))
  /\ (forall o, c = Bet o ->
      body_field "currency" r
      = Some (Spec.resolve (of_string (bet_currency o))
                (Spec.ambient_or "currency" "USD" w))).
Proof.
  intros Hnet.
  destruct (invoke_reached _ _ _ Hnet) as [Hcfg ->].
  apply refusal_None in Hcfg. destruct Hcfg as [_ [Hc [Hsession Hhost]]].
  split; [ | now apply body_of_request ].
  pose proof Hhost as Hh. rewrite explicit_rgsUrl_resolve in Hh.
  destruct (truthy_resolve_string _ _ _ (explicit_rgsUrl_of_string c) Hh)
    as [h [Hres _]].
  exists h. split; [ assumption | ].
  unfold request_of, post_request, text; cbn [req_url].
  rewrite explicit_rgsUrl_resolve, Hres. reflexivity.
Qed.

(** C9, as the code has it. In a page whose URL has no (or an empty)
    [lang], authenticating with session "s1" and host "api.example.com"
    and no language is one POST to
    [https://api.example.com/wallet/authenticate] with the body
    [{sessionID: "s1", language: "en"}]. *)
Theorem authenticate_defaults_language (w : world) :
  window_defined w = true ->
  truthy (ambient "lang" w) = false ->
  network (snd (requestAuthenticate fetch Number_toString
                  (Some {| auth_sessionID := Some "s1";
                           auth_rgsUrl := Some "api.example.com";
                           auth_language := None |}) w))
  = (network w
     ++ [{| req_url := "https://api.example.com/wallet/authenticate";
            req_method := POST;
            req_headers := [("Content-Type", "application/json")];
            req_body := Some (VObj [("sessionID", VStr "s1");
                                    ("language", VStr "en")]) |}])%list.
Proof.
  intros Hw Hlang.
  match goal with
  | |- network (snd (requestAuthenticate _ _ ?o _)) = _ =>
      change (requestAuthenticate fetch Number_toString o)
        with (invoke fetch Number_toString (Authenticate o));
      rewrite (invoke_sends (Authenticate o) w);
        [ | apply refusal_None; repeat split; auto ]
  end.
  f_equal. f_equal.
  unfold request_of, post_request, variables_of; cbn.
  unfold js_or at 1. cbn. unfold js_or. rewrite Hlang. reflexivity.
Qed.

Lemma omit_empty_same_run (c : call) (w : world) :
  refusal (omit_empty c) w = refusal c w
  /\ request_of Number_toString (omit_empty c) w = request_of Number_toString c w.
Proof.
  unfold refusal, missing_config, request_of, variables_of, resolved_sessionID,
    resolved_rgsUrl.
  destruct c as [[x | ] | x | [x | ] | x | x | [x | ] | | | ];
    cbn [omit_empty option_map uses_sessionID explicit_sessionID
         explicit_rgsUrl optional path_of
         auth_sessionID auth_rgsUrl auth_language
         bet_amount bet_mode bet_currency bet_sessionID bet_rgsUrl
         endround_sessionID endround_rgsUrl
         event_eventIndex event_sessionID event_rgsUrl
         force_mode force_search force_rgsUrl
         balance_sessionID balance_rgsUrl];
    rewrite ?js_or_omit; split; reflexivity.
Qed.

Lemma empty_explicit_is_readable (c : call) :
  explicit_sessionID c = VStr "" \/ explicit_rgsUrl c = VStr "" ->
  options_readable c = true.
Proof. destruct c; cbn; intros [H | H]; try reflexivity; discriminate. Qed.

(** C10, in a page and where the code departs from it. An explicit empty
    string in a configuration field of a call is the same as leaving the
    field out: the call runs as the call without it. What is then sent
    holds the value of the page URL in place of the empty session or host,
    and the value of the page URL or else "en" and "USD" in place of an
    empty language or currency; in a page that has the session, a call
    with an empty session is sent with it. In a page with neither, the
    call fails as missing a session, and likewise for the host, without a
    network call. Where there is no [window], the call does not fail as
    missing a field: reading the page URL raises a [ReferenceError], and
    that is what the caller gets. *)
Theorem empty_string_counts_as_omitted (c : call) (w : world) :
  invoke fetch Number_toString c w = invoke fetch Number_toString (omit_empty c) w
  /\ (forall r,
        network (snd (invoke fetch Number_toString c w)) = (network w ++ [r])%list ->
        (explicit_sessionID c = VStr "" ->
         body_field "sessionID" r = Some (ambient "sessionID" w))
        /\ (explicit_rgsUrl c = VStr "" ->
            exists h, ambient "rgs_url" w = VStr h
                      /\ req_url r = "https://" ++ h ++ path_of c)
        /\ (forall o, c = Authenticate (Some o) -> auth_language o = Some "" ->
            body_field "language" r = Some (Spec.ambient_or "lang" "en" w))
        /\ (forall o, c = Bet o -> bet_currency o = Some "" ->
            body_field "currency" r = Some (Spec.ambient_or "currency" "USD" w)))
  /\ (window_defined w = true ->
      explicit_sessionID c = VStr "" ->
      truthy (ambient "sessionID" w) = true ->
      truthy (resolved_rgsUrl c w) = true ->
      exists r,
        network (snd (invoke fetch Number_toString c w)) = (network w ++ [r])%list
        /\ body_field "sessionID" r = Some (ambient "sessionID" w))
  /\ (window_defined w = true ->
      explicit_sessionID c = VStr "" ->
      truthy (ambient "sessionID" w) = false ->
      invoke fetch Number_toString c w = (Rejected (Error sessionID_required), w))
  /\ (window_defined w = true ->
      explicit_rgsUrl c = VStr "" ->
      truthy (ambient "rgs_url" w) = false ->
      invoke fetch Number_toString c w
      = (Rejected (Error (if uses_sessionID c && negb (truthy (resolved_sessionID c w))
                          then sessionID_required else rgsUrl_required)), w))
  /\ (window_defined w = false ->
      explicit_sessionID c = VStr "" \/ explicit_rgsUrl c = VStr "" ->
      invoke fetch Number_toString c w
      = (Rejected (ReferenceError "window is not defined"), w)).
Proof.
  assert (Hsent : forall r,
            network (snd (invoke fetch Number_toString c w)) = (network w ++ [r])%list ->
            (explicit_sessionID c = VStr "" ->
             body_field "sessionID" r = Some (ambient "sessionID" w))
            /\ (explicit_rgsUrl c = VStr "" ->
                exists h, ambient "rgs_url" w = VStr h
                          /\ req_url r = "https://" ++ h ++ path_of c)
            /\ (forall o, c = Authenticate (Some o) -> auth_language o = Some "" ->
                body_field "language" r = Some (Spec.ambient_or "lang" "en" w))
            /\ (forall o, c = Bet o -> bet_currency o = Some "" ->
                body_field "currency" r = Some (Spec.ambient_or "currency" "USD" w))).
  { intros r Hnet. destruct (invoke_reached _ _ _ Hnet) as [Href ->].
    apply refusal_None in Href. destruct Href as [_ [Hc [Hsession Hhost]]].
    destruct (body_of_request c w Hc Hhost Hsession) as [Hsid [Hlang Hcur]].
    split; [ | split; [ | split ] ].
    - intros Hexplicit.
      assert (Huses : uses_sessionID c = true)
        by (destruct c; try reflexivity; discriminate).
      now rewrite (Hsid Huses), Hexplicit.
    - intros Hexplicit.
      pose proof Hhost as Hh. rewrite explicit_rgsUrl_resolve in Hh.
      destruct (truthy_resolve_string _ _ _ (explicit_rgsUrl_of_string c) Hh)
        as [h [Hres _]].
      rewrite Hexplicit in Hres. cbn in Hres.
      exists h. split; [ assumption | ].
      unfold request_of, post_request, text; cbn [req_url].
      rewrite explicit_rgsUrl_resolve, Hexplicit. cbn [Spec.resolve is_empty].
      now rewrite Hres.
    - intros o -> Hexplicit. rewrite (Hlang _ eq_refl).
      cbn [optional]. now rewrite Hexplicit.
    - intros o -> Hexplicit. rewrite (Hcur _ eq_refl). now rewrite Hexplicit. }
  split; [ | split; [ exact Hsent | split; [ | split; [ | split ] ] ] ].
  - rewrite !invoke_run.
    destruct (omit_empty_same_run c w) as [-> ->]. reflexivity.
  - intros Hw Hexplicit Hambient Hhost.
    assert (Hc : options_readable c = true)
      by (apply empty_explicit_is_readable; now left).
    assert (Href : refusal c w = None).
    { apply refusal_None. repeat split; auto. right.
      unfold resolved_sessionID, js_or. rewrite Hexplicit. cbn. assumption. }
    eexists. split; [ apply (invoke_sends _ _ Href) | ].
    apply (Hsent _ (invoke_sends _ _ Href)). assumption.
  - intros Hw Hexplicit Hambient.
    assert (Hc : options_readable c = true)
      by (apply empty_explicit_is_readable; now left).
    apply (invoke_local _ _ _ Hw Hc).
    assert (Huses : uses_sessionID c = true)
      by (destruct c; try reflexivity; discriminate).
    unfold missing_config, resolved_sessionID, js_or.
    rewrite Huses, Hexplicit; cbn. rewrite Hambient. reflexivity.
  - intros Hw Hexplicit Hambient.
    assert (Hc : options_readable c = true)
      by (apply empty_explicit_is_readable; now right).
    apply (invoke_local _ _ _ Hw Hc).
    unfold missing_config.
    destruct (uses_sessionID c && negb (truthy (resolved_sessionID c w)));
      [ reflexivity | ].
    unfold resolved_rgsUrl, js_or. rewrite Hexplicit; cbn.
    rewrite Hambient. reflexivity.
  - intros Hw _. apply invoke_refused. unfold refusal. rewrite Hw. reflexivity.
Qed.





(** ** Further properties of the client *)

Lemma invoke_reached_run (c : call) (w : world) (r : request) :
  network (snd (invoke fetch Number_toString c w)) = (network w ++ [r])%list ->
  invoke fetch Number_toString c w = settle Number_toString (fetch r) (sent r w).
Proof.
  intros Hnet. destruct (invoke_reached _ _ _ Hnet) as [Hcfg ->].
  now rewrite invoke_run, Hcfg.
Qed.

Lemma settle_location (answer : outcome response) (w : world) :
  location_search (snd (settle Number_toString answer w)) = location_search w.
Proof.
  unfold settle.
  destruct answer as [resp | e]; [ | reflexivity ].
  destruct (N.eqb (resp_status resp) 200); reflexivity.
Qed.

Lemma settle_outcome (answer : outcome response) (w1 w2 : world) :
  fst (settle Number_toString answer w1) = fst (settle Number_toString answer w2).
Proof.
  unfold settle.
  destruct answer as [resp | e]; [ | reflexivity ].
  destruct (N.eqb (resp_status resp) 200); reflexivity.
Qed.

(** X1. When [fetch] itself rejects, the operation rejects with the very
    same failure: it is neither wrapped nor retried, one call was made and
    nothing is written to the console. *)
Theorem transport_failure_is_passed_on (c : call) (w : world) (r : request)
    (e : failure) :
  network (snd (invoke fetch Number_toString c w)) = (network w ++ [r])%list ->
  fetch r = Rejected e ->
  invoke fetch Number_toString c w = (Rejected e, sent r w).
Proof.
  intros Hnet Hfetch.
  rewrite (invoke_reached_run _ _ _ Hnet). unfold settle. now rewrite Hfetch.
Qed.

(** X2. A status of 200 with a body that is not JSON is not a success:
    the rejection of [response.json()] is what the caller gets, and
    nothing is written to the console. *)
Theorem undecodable_body_is_a_SyntaxError (c : call) (w : world) (r : request)
    (resp : response) :
  network (snd (invoke fetch Number_toString c w)) = (network w ++ [r])%list ->
  fetch r = Resolved resp ->
  resp_status resp = 200%N ->
  resp_json resp = None ->
  invoke fetch Number_toString c w = (Rejected SyntaxError, sent r w).
Proof.
  intros Hnet Hfetch Hstatus Hjson.
  rewrite (invoke_reached_run _ _ _ Hnet). unfold settle.
  now rewrite Hfetch, Hstatus, Hjson.
Qed.

(** X3. An operation calls the transport at most once, after the calls
    already made, and leaves the page URL as it is. *)
Theorem at_most_one_request (c : call) (w : world) :
  location_search (snd (invoke fetch Number_toString c w)) = location_search w
  /\ (network (snd (invoke fetch Number_toString c w)) = network w
      \/ network (snd (invoke fetch Number_toString c w))
         = (network w ++ [request_of Number_toString c w])%list).
Proof.
  rewrite invoke_run.
  destruct (refusal c w) as [e | ].
  - split; [ reflexivity | now left ].
  - rewrite settle_location, settle_network. split; [ reflexivity | now right ].
Qed.

(** X4. The console is written to in one case only: the transport
    answered with a status other than 200, and then one line holds that
    status and its text. A failed check, a transport failure and a status
    of 200 leave the console as it is. *)
Theorem console_records_bad_statuses_only (c : call) (w : world) :
  (network (snd (invoke fetch Number_toString c w)) = network w ->
   console (snd (invoke fetch Number_toString c w)) = console w)
  /\ (forall r,
        network (snd (invoke fetch Number_toString c w)) = (network w ++ [r])%list ->
        console (snd (invoke fetch Number_toString c w))
        = match fetch r with
          | Rejected _ => console w
          | Resolved resp =>
              if N.eqb (resp_status resp) 200 then console w
              else (console w ++ [(resp_status resp, resp_statusText resp)])%list
          end).
Proof.
  split.
  - intros Hnet. rewrite invoke_run in *.
    destruct (refusal c w) as [e | ]; [ reflexivity | ].
    rewrite settle_network in Hnet. cbn in Hnet. now apply tail_grows in Hnet.
  - intros r Hnet. rewrite (invoke_reached_run _ _ _ Hnet). unfold settle.
    destruct (fetch r) as [resp | e]; [ | reflexivity ].
    destruct (N.eqb (resp_status resp) 200); reflexivity.
Qed.

(** X5. On a status other than 200 whose body is an object with a
    non-empty string [message], the operation fails with
    ["RGS API error: <status> <statusText> - <message>"]. *)
Theorem error_carries_the_server_message (c : call) (w : world) (r : request)
    (resp : response) (props : list (string * value)) (m : string) :
  network (snd (invoke fetch Number_toString c w)) = (network w ++ [r])%list ->
  fetch r = Resolved resp ->
  resp_status resp <> 200%N ->
  resp_json resp = Some (VObj props) ->
  lookup "message" props = Some (VStr m) ->
  is_empty m = false ->
  fst (invoke fetch Number_toString c w)
  = Rejected (Error ("RGS API error: " ++ status_toString (resp_status resp)
                       ++ " " ++ resp_statusText resp ++ " - " ++ m)).
Proof.
  intros Hnet Hfetch Hstatus Hjson Hmessage Hm.
  rewrite (invoke_reached_run _ _ _ Hnet). unfold settle. rewrite Hfetch.
  apply N.eqb_neq in Hstatus. rewrite Hstatus, Hjson.
  cbn [get_property]. rewrite Hmessage. cbn [fst].
  unfold api_error_message. cbn [truthy ToString]. now rewrite Hm.
Qed.

(** X6. On a status other than 200 whose body is not JSON, or is an
    object without [message] or with an empty one, the failure is
    ["RGS API error: <status> <statusText>"] and nothing more. *)
Theorem error_without_a_server_message (c : call) (w : world) (r : request)
    (resp : response) :
  network (snd (invoke fetch Number_toString c w)) = (network w ++ [r])%list ->
  fetch r = Resolved resp ->
  resp_status resp <> 200%N ->
  (resp_json resp = None
   \/ exists props,
        resp_json resp = Some (VObj props)
        /\ (lookup "message" props = None \/ lookup "message" props = Some (VStr ""))) ->
  fst (invoke fetch Number_toString c w)
  = Rejected (Error ("RGS API error: " ++ status_toString (resp_status resp)
                       ++ " " ++ resp_statusText resp)).
Proof.
  intros Hnet Hfetch Hstatus Hbody.
  rewrite (invoke_reached_run _ _ _ Hnet). unfold settle. rewrite Hfetch.
  apply N.eqb_neq in Hstatus. rewrite Hstatus.
  destruct Hbody as [Hjson | [props [Hjson [Hmessage | Hmessage]]]];
    rewrite Hjson; cbn [get_property lookup]; try rewrite Hmessage; reflexivity.
Qed.

(** X7. An operation never resolves when the transport answered with a
    status other than 200: whatever the body, the caller gets a
    rejection. *)
Theorem bad_status_never_resolves (c : call) (w : world) (r : request)
    (resp : response) :
  network (snd (invoke fetch Number_toString c w)) = (network w ++ [r])%list ->
  fetch r = Resolved resp ->
  resp_status resp <> 200%N ->
  exists e, fst (invoke fetch Number_toString c w) = Rejected e.
Proof.
  intros Hnet Hfetch Hstatus.
  rewrite (invoke_reached_run _ _ _ Hnet). unfold settle. rewrite Hfetch.
  apply N.eqb_neq in Hstatus. rewrite Hstatus. cbn [fst].
  destruct (get_property _ "message") as [m | e]; [ | eexists; reflexivity ].
  destruct (api_error_message Number_toString resp m); eexists; reflexivity.
Qed.

Lemma invoke_location (c : call) (w : world) :
  location_search (snd (invoke fetch Number_toString c w)) = location_search w.
Proof.
  rewrite invoke_run.
  destruct (refusal c w); [ reflexivity | now rewrite settle_location ].
Qed.

Lemma resolved_config_strings (c : call) (w : world) :
  missing_config c w = None ->
  (exists h, resolved_rgsUrl c w = VStr h /\ is_empty h = false)
  /\ (uses_sessionID c = true ->
      exists s, resolved_sessionID c w = VStr s /\ is_empty s = false).
Proof.
  intros Hcfg. apply missing_config_None in Hcfg. destruct Hcfg as [Hsession Hhost].
  split.
  - rewrite explicit_rgsUrl_resolve in *.
    exact (truthy_resolve_string _ _ _ (explicit_rgsUrl_of_string c) Hhost).
  - intros Huses. destruct Hsession as [Hno | Hyes]; [ congruence | ].
    rewrite explicit_sessionID_resolve in *.
    exact (truthy_resolve_string _ _ _ (explicit_sessionID_of_string c) Hyes).
Qed.

(** X8. Whatever an operation sends is a POST with the one header
    [Content-Type: application/json] and a JSON object as body. *)
Theorem requests_are_json_posts (c : call) (w : world) (r : request) :
  network (snd (invoke fetch Number_toString c w)) = (network w ++ [r])%list ->
  req_method r = POST
  /\ req_headers r = [("Content-Type", "application/json")]
  /\ exists props, req_body r = Some (VObj props).
Proof.
  intros Hnet. destruct (invoke_reached _ _ _ Hnet) as [Href ->].
  apply refusal_None in Href. destruct Href as [_ [Hc _]].
  split; [ reflexivity | split; [ reflexivity | ] ].
  unfold request_of, post_request; cbn [req_body].
  destruct c; try discriminate; eexists; reflexivity.
Qed.

(** X9. No request leaves with an empty host or an empty session: the
    URL of a request is [https://<host><path>] with a non-empty host, and
    every operation that sends a session sends a non-empty string. *)
Theorem host_and_session_on_the_wire_are_not_empty (c : call) (w : world)
    (r : request) :
  network (snd (invoke fetch Number_toString c w)) = (network w ++ [r])%list ->
  (exists h, is_empty h = false /\ req_url r = "https://" ++ h ++ path_of c)
  /\ (uses_sessionID c = true ->
      exists s, is_empty s = false /\ body_field "sessionID" r = Some (VStr s)).
Proof.
  intros Hnet. destruct (invoke_reached _ _ _ Hnet) as [Href ->].
  apply refusal_None in Href. destruct Href as [_ [Hc [Hsession Hhost]]].
  assert (Hcfg : missing_config c w = None)
    by (apply missing_config_None; now split).
  destruct (resolved_config_strings _ _ Hcfg) as [[h [Hh Hhne]] Hsid].
  split.
  - exists h. split; [ assumption | ].
    unfold request_of, post_request, text; cbn [req_url]. now rewrite Hh.
  - intros Huses. destruct (Hsid Huses) as [s [Hs Hsne]].
    exists s. split; [ assumption | ].
    destruct (body_of_request c w Hc Hhost Hsession) as [Hbody _].
    rewrite (Hbody Huses), <- explicit_sessionID_resolve. now f_equal.
Qed.

(** X10. The language of an authenticate request and the currency of a
    bet request are never empty: an omitted or empty argument is replaced
    by the value of the page URL, and that by "en" and "USD". *)
Theorem language_and_currency_are_never_empty (w : world) (r : request) :
  (forall o,
     network (snd (requestAuthenticate fetch Number_toString o w))
     = (network w ++ [r])%list ->
     exists l, is_empty l = false /\ body_field "language" r = Some (VStr l))
  /\ (forall o,
        network (snd (requestBet fetch Number_toString o w))
        = (network w ++ [r])%list ->
        exists k, is_empty k = false /\ body_field "currency" r = Some (VStr k)).
Proof.
  split; intros o Hnet.
  - change (requestAuthenticate fetch Number_toString o)
      with (invoke fetch Number_toString (Authenticate o)) in Hnet.
    destruct (invoke_reached _ _ _ Hnet) as [Hcfg ->].
    apply refusal_None in Hcfg. destruct Hcfg as [_ [Hc [Hsession Hhost]]].
    destruct (body_of_request _ w Hc Hhost Hsession) as [_ [Hbody _]].
    rewrite (Hbody o eq_refl).
    destruct o as [x | ]; cbn [optional].
    + destruct (resolve_default_string (auth_language x) "lang" "en" w eq_refl)
        as [l [-> Hl]]. now exists l.
    + destruct (resolve_default_string None "lang" "en" w eq_refl) as [l [Hl Hne]].
      cbn [of_string] in Hl. rewrite Hl. now exists l.
  - change (requestBet fetch Number_toString o)
      with (invoke fetch Number_toString (Bet o)) in Hnet.
    destruct (invoke_reached _ _ _ Hnet) as [Hcfg ->].
    apply refusal_None in Hcfg. destruct Hcfg as [_ [Hc [Hsession Hhost]]].
    destruct (body_of_request _ w Hc Hhost Hsession) as [_ [_ Hbody]].
    rewrite (Hbody o eq_refl).
    destruct (resolve_default_string (bet_currency o) "currency" "USD" w eq_refl)
      as [k [-> Hk]]. now exists k.
Qed.

(** X11. [requestEndEvent] sends the event index as text, never as a
    number: the string of the number, and the text "undefined" when the
    index is not given. *)
Theorem event_index_is_sent_as_text (o : EndEventOptions) (w : world) (r : request) :
  network (snd (requestEndEvent fetch Number_toString o w)) = (network w ++ [r])%list ->
  body_field "event" r
  = Some (VStr (match event_eventIndex o with
                | Some x => Number_toString x
                | None => "undefined"
                end)).
Proof.
  intros Hnet.
  change (requestEndEvent fetch Number_toString o)
    with (invoke fetch Number_toString (EndEvent o)) in Hnet.
  destruct (invoke_reached_config _ _ _ Hnet) as [Hcfg ->].
  destruct (resolved_config_strings _ _ Hcfg) as [_ Hsid].
  destruct (Hsid eq_refl) as [s [Hs _]].
  unfold request_of, post_request, body_field; cbn [req_body].
  unfold variables_of. rewrite Hs.
  destruct (event_eventIndex o); reflexivity.
Qed.

(** X12. [requestForceResult] sends no session, whatever the page URL
    holds: its body has the mode as given (left out when absent) and the
    search criteria as they serialise, and nothing named [sessionID]. *)
Theorem force_result_sends_no_session (o : ForceResultOptions) (w : world)
    (r : request) :
  network (snd (requestForceResult fetch Number_toString o w))
  = (network w ++ [r])%list ->
  body_field "sessionID" r = None
  /\ body_field "mode" r = option_map VStr (force_mode o)
  /\ body_field "search" r = JSON_stringify (force_search o).
Proof.
  intros Hnet.
  change (requestForceResult fetch Number_toString o)
    with (invoke fetch Number_toString (ForceResult o)) in Hnet.
  destruct (invoke_reached _ _ _ Hnet) as [_ ->].
  unfold request_of, post_request, body_field; cbn [req_body].
  unfold variables_of.
  destruct (force_mode o) as [m | ]; cbn;
    destruct (JSON_stringify (force_search o)); cbn; repeat split; reflexivity.
Qed.

(** X14. [get] sends a GET without body to [https://<rgsUrl><url>]; it
    returns the decoded body on a status of 200 and rejects on any other
    status. A host without string form, which no string is, stops the
    call before the transport. *)
Theorem get_sends_no_body (url : string) (rgsUrl : value) (w : world) :
  (forall host,
     ToString Number_toString rgsUrl = Resolved host ->
     network (snd (get fetch Number_toString url rgsUrl w))
     = (network w ++ [get_request Number_toString url rgsUrl])%list
     /\ (forall resp,
           fetch (get_request Number_toString url rgsUrl) = Resolved resp ->
           (forall v, resp_status resp = 200%N -> resp_json resp = Some v ->
                      fst (get fetch Number_toString url rgsUrl w) = Resolved v)
           /\ (resp_status resp <> 200%N ->
               exists e, fst (get fetch Number_toString url rgsUrl w) = Rejected e)))
  /\ (forall e,
        ToString Number_toString rgsUrl = Rejected e ->
        get fetch Number_toString url rgsUrl w = (Rejected e, w)).
Proof.
  split.
  - intros host Hhost.
    assert (Hrun : get fetch Number_toString url rgsUrl w
                   = settle Number_toString
                       (fetch (get_request Number_toString url rgsUrl))
                       (sent (get_request Number_toString url rgsUrl) w)).
    { unfold get, bind, lift, fetcher, settle, get_request, sent, text.
      rewrite Hhost. cbn.
      destruct (fetch _) as [resp | e]; [ | reflexivity ].
      destruct (N.eqb (resp_status resp) 200); cbn.
      - unfold response_json, bind, ret, throw.
        destruct (resp_json resp); reflexivity.
      - unfold catch, response_json, bind, ret, throw, lift, console_error, logged; cbn.
        destruct (resp_json resp) as [d | ]; cbn.
        + destruct (get_property d "message") as [m | e]; [ | reflexivity ].
          destruct (api_error_message Number_toString resp m); reflexivity.
        + destruct (api_error_message Number_toString resp VUndefined); reflexivity. }
    rewrite Hrun. split; [ now rewrite settle_network | ].
    intros resp Hfetch. unfold settle. rewrite Hfetch. split.
    + intros v Hstatus Hjson. now rewrite Hstatus, Hjson.
    + intros Hstatus. apply N.eqb_neq in Hstatus. rewrite Hstatus. cbn [fst].
      destruct (get_property _ "message") as [m | e]; [ | eexists; reflexivity ].
      destruct (api_error_message Number_toString resp m); eexists; reflexivity.
  - intros e He. unfold get, bind, lift. now rewrite He.
Qed.

Lemma explicit_rgsUrl_has_text (c : call) :
  exists h, ToString Number_toString (explicit_rgsUrl c) = Resolved h.
Proof.
  destruct (explicit_rgsUrl_of_string c) as [o ->].
  destruct o; eexists; reflexivity.
Qed.

Lemma legacy_post_settles (url : string) (rgsUrl variables : value) (w : world) :
  (exists h, ToString Number_toString rgsUrl = Resolved h) ->
  Legacy.post fetch Number_toString url rgsUrl variables w
  = match fetch (post_request Number_toString url rgsUrl variables) with
    | Rejected e =>
        (Rejected e, sent (post_request Number_toString url rgsUrl variables) w)
    | Resolved resp =>
        (match resp_json resp with
         | Some v => Resolved v
         | None => Rejected SyntaxError
         end,
         if N.eqb (resp_status resp) 200
         then sent (post_request Number_toString url rgsUrl variables) w
         else logged (resp_status resp) (resp_statusText resp)
                (sent (post_request Number_toString url rgsUrl variables) w))
    end.
Proof.
  intros [h Hh].
  unfold Legacy.post, bind, lift, fetcher, post_request, sent, text.
  rewrite Hh. cbn.
  destruct (fetch _) as [resp | e]; [ | reflexivity ].
  destruct (N.eqb (resp_status resp) 200); cbn;
    unfold response_json, ret, throw, logged; cbn;
    destruct (resp_json resp); reflexivity.
Qed.

Lemma legacy_invoke_run (c : call) (w : world) :
  has_options c = true ->
  Legacy.invoke fetch Number_toString c w
  = Legacy.post fetch Number_toString (path_of c) (explicit_rgsUrl c)
      (legacy_variables Number_toString c) w.
Proof.
  destruct c as [[x | ] | x | [x | ] | x | x | [x | ] | | | ]; cbn [has_options];
    intros H; try discriminate; try reflexivity.
  cbn. unfold Legacy.requestEndEvent, bind, lift.
  destruct (event_eventIndex x); reflexivity.
Qed.

(** X15. The earlier copy of the client checks nothing and reads nothing
    from the page: a call with an options object always reaches the
    transport, once, with a request built from the options alone, even
    when session or host are absent or empty. *)
Theorem legacy_always_sends (c : call) (w : world) :
  has_options c = true ->
  network (snd (Legacy.invoke fetch Number_toString c w))
  = (network w ++ [legacy_request Number_toString c])%list.
Proof.
  intros H.
  rewrite (legacy_invoke_run _ _ H),
    (legacy_post_settles _ _ _ _ (explicit_rgsUrl_has_text c)).
  unfold legacy_request.
  destruct (fetch _) as [resp | e]; [ | reflexivity ].
  cbn [snd]. destruct (N.eqb (resp_status resp) 200); reflexivity.
Qed.

(** X16. The earlier copy of the client does not turn an HTTP status
    into a failure: whatever the status, a body that decodes is returned
    to the caller. *)
Theorem legacy_returns_the_body_whatever_the_status (c : call) (w : world)
    (resp : response) (v : value) :
  has_options c = true ->
  fetch (legacy_request Number_toString c) = Resolved resp ->
  resp_json resp = Some v ->
  fst (Legacy.invoke fetch Number_toString c w) = Resolved v.
Proof.
  intros H Hfetch Hjson.
  rewrite (legacy_invoke_run _ _ H),
    (legacy_post_settles _ _ _ _ (explicit_rgsUrl_has_text c)).
  unfold legacy_request in Hfetch. now rewrite Hfetch, Hjson.
Qed.

Lemma fully_explicit_request (c : call) (w : world) :
  fully_explicit c = true ->
  has_options c = true
  /\ options_readable c = true
  /\ missing_config c w = None
  /\ request_of Number_toString c w = legacy_request Number_toString c.
Proof.
  unfold fully_explicit. intros H.
  apply andb_prop in H. destruct H as [H Hthird].
  apply andb_prop in H. destruct H as [Hsession Hhost].
  assert (Hh : resolved_rgsUrl c w = explicit_rgsUrl c)
    by (unfold resolved_rgsUrl, js_or; now rewrite Hhost).
  split; [ | split; [ | split ] ].
  - destruct c as [[x | ] | x | [x | ] | x | x | [x | ] | | | ];
      try reflexivity; discriminate.
  - destruct c; try reflexivity; discriminate.
  - apply missing_config_None. rewrite Hh. split; [ | assumption ].
    destruct (uses_sessionID c); [ right | now left ].
    cbn in Hsession. unfold resolved_sessionID, js_or. now rewrite Hsession.
  - unfold request_of, legacy_request. rewrite Hh. f_equal.
    assert (Hs : uses_sessionID c = true -> resolved_sessionID c w = explicit_sessionID c).
    { intros Huses. rewrite Huses in Hsession. cbn in Hsession.
      unfold resolved_sessionID, js_or. now rewrite Hsession. }
    destruct c as [o | o | o | o | o | o | | | ]; unfold variables_of, legacy_variables;
      try rewrite (Hs eq_refl); try reflexivity;
      unfold js_or at 1; now rewrite Hthird.
Qed.

Lemma legacy_invoke_network (c : call) (w : world) :
  has_options c = true ->
  network (snd (Legacy.invoke fetch Number_toString c w))
  = (network w ++ [legacy_request Number_toString c])%list.
Proof.
  intros H.
  rewrite (legacy_invoke_run _ _ H),
    (legacy_post_settles _ _ _ _ (explicit_rgsUrl_has_text c)).
  unfold legacy_request.
  destruct (fetch _) as [resp | e]; [ | reflexivity ].
  cbn [snd]. destruct (N.eqb (resp_status resp) 200); reflexivity.
Qed.

(** X17. For a call that names session, host and language or currency
    itself: in a page the client sends the request the earlier copy
    sends, and the two settle alike unless the answer is a status other
    than 200; where there is no [window] the two part, the earlier copy
    sends the request and the client rejects without sending it. *)
Theorem explicit_calls_behave_as_before (c : call) (w : world) :
  fully_explicit c = true ->
  (window_defined w = true ->
   network (snd (invoke fetch Number_toString c w))
   = network (snd (Legacy.invoke fetch Number_toString c w))
   /\ ((forall resp,
          fetch (request_of Number_toString c w) = Resolved resp ->
          resp_status resp = 200%N) ->
       invoke fetch Number_toString c w = Legacy.invoke fetch Number_toString c w))
  /\ (window_defined w = false ->
      invoke fetch Number_toString c w
      = (Rejected (ReferenceError "window is not defined"), w)
      /\ network (snd (Legacy.invoke fetch Number_toString c w))
         = (network w ++ [legacy_request Number_toString c])%list).
Proof.
  intros H. destruct (fully_explicit_request c w H) as [Hopt [Hc [Hcfg Hreq]]].
  split.
  - intros Hw.
    assert (Href : refusal c w = None).
    { apply refusal_None. apply missing_config_None in Hcfg. tauto. }
    rewrite invoke_run, Href, (legacy_invoke_run _ _ Hopt),
      (legacy_post_settles _ _ _ _ (explicit_rgsUrl_has_text c)).
    fold (legacy_request Number_toString c). rewrite Hreq.
    split.
    + rewrite settle_network.
      destruct (fetch _) as [resp | e]; [ | reflexivity ].
      cbn [snd]. destruct (N.eqb (resp_status resp) 200); reflexivity.
    + intros Hok. unfold settle.
      destruct (fetch _) as [resp | e]; [ | reflexivity ].
      now rewrite (Hok resp eq_refl).
  - intros Hw. split; [ | now apply legacy_invoke_network ].
    apply invoke_refused. unfold refusal. now rewrite Hw.
Qed.

(** X18. Of the page URL an operation reads the parameters [sessionID],
    [rgs_url], [lang] and [currency] and no other: one more parameter of
    another name changes neither what the operation sends nor how it
    settles. *)
Theorem other_page_parameters_are_ignored (c : call) (w : world) (k v : string) :
  k <> "sessionID" -> k <> "rgs_url" -> k <> "lang" -> k <> "currency" ->
  fst (invoke fetch Number_toString c
         {| window_defined := window_defined w;
            location_search := (k, v) :: location_search w;
            network := network w;
            console := console w |})
  = fst (invoke fetch Number_toString c w)
  /\ network (snd (invoke fetch Number_toString c
                     {| window_defined := window_defined w;
                        location_search := (k, v) :: location_search w;
                        network := network w;
                        console := console w |}))
     = network (snd (invoke fetch Number_toString c w)).
Proof.
  intros Hs Hh Hl Hc.
  set (w' := {| window_defined := window_defined w;
                location_search := (k, v) :: location_search w;
                network := network w;
                console := console w |}).
  assert (Hread : forall name, k <> name -> ambient name w' = ambient name w).
  { intros name Hname. unfold ambient, URLSearchParams_get.
    cbn [location_search w' lookup].
    assert (String.eqb name k = false) as ->
      by (apply String.eqb_neq; congruence).
    reflexivity. }
  assert (Hsame : refusal c w' = refusal c w
                  /\ request_of Number_toString c w' = request_of Number_toString c w).
  { unfold refusal, missing_config, request_of, variables_of, resolved_sessionID,
      resolved_rgsUrl.
    rewrite !(Hread "sessionID" Hs), !(Hread "rgs_url" Hh),
      !(Hread "lang" Hl), !(Hread "currency" Hc).
    split; reflexivity. }
  destruct Hsame as [Hcfg Hreq].
  rewrite !invoke_run, Hcfg, Hreq.
  destruct (refusal c w) as [e | ].
  - split; reflexivity.
  - split; [ apply settle_outcome | now rewrite !settle_network ].
Qed.

(** X19. Where [window] is not defined, as under Node.js, every operation
    rejects with a [ReferenceError] before it reads its options, checks
    anything or calls the transport, also when session and host are given
    explicitly: the world is left as it was. *)
Theorem without_window_nothing_is_sent (c : call) (w : world) :
  window_defined w = false ->
  invoke fetch Number_toString c w
  = (Rejected (ReferenceError "window is not defined"), w).
Proof.
  intros Hw. apply invoke_refused. unfold refusal. now rewrite Hw.
Qed.


End Properties.

(** * The properties at concrete inputs *)

#[local] Set Warnings "-inexact-float".

Import Mock.

(** C1 fails on the code: a bet of -1 is not refused, it is sent with the
    amount -1000000, and an infinite amount is sent as [null]; a bet of
    2.01 is sent with an amount that is not a whole number, where rounding
    gives 2010000; and where there is no [window] a bet of 1 is not sent at
    all. *)
Lemma amounts_reach_the_wire_unchecked :
  (fst (requestBet ok Number_toString (bet (Some (-1)%float) (Some "base") None None) game_page)
   = Resolved insufficient_balance
   /\ map wire_amount
        (network (snd (requestBet ok Number_toString
                         (bet (Some (-1)%float) (Some "base") None None) game_page)))
      = [Some (VNum (-1000000)%float)]
   /\ Spec.toWireAmount (-1)%float = None)
  /\ map wire_amount
       (network (snd (requestBet ok Number_toString
                        (bet (Some infinity) (Some "base") None None) game_page)))
     = [Some VNull]
  /\ (map wire_amount
        (network (snd (requestBet ok Number_toString
                         (bet (Some 2.01%float) (Some "base") None None) game_page)))
      = [Some (VNum (2.01 * 1000000)%float)]
      /\ float_integer (2.01 * 1000000)%float = None
      /\ Spec.toWireAmount 2.01%float = Some 2010000%Z)
  /\ requestBet ok Number_toString
       (bet (Some 1%float) (Some "base") (Some "s1") (Some "h")) node_process
     = (Rejected (ReferenceError "window is not defined"), node_process).
Proof. vm_compute. repeat split; reflexivity. Qed.

Lemma bet_amount_is_scaled_not_validated_witness :
  wire_amount (request_of Number_toString
                 (Bet (bet (Some 2.5%float) (Some "base") None None)) game_page)
  = Some (VNum 2500000%float)
  /\ float_integer 2500000%float = Some 2500000%Z
  /\ round_to_nearest (2.5 * API_AMOUNT_MULTIPLIER)%float = Some 2500000%Z
  /\ Spec.toWireAmount 2.5%float = Some 2500000%Z.
Proof.
  destruct (bet_amount_is_scaled_not_validated ok Number_toString
              (bet (Some 2.5%float) (Some "base") None None) game_page
              eq_refl eq_refl eq_refl) as [_ H].
  destruct (H 2.5%float 2500000%Z eq_refl eq_refl) as [Hwire [Hwhole [Hround Hspec]]].
  exact (conj Hwire (conj Hwhole (conj Hround (Hspec eq_refl eq_refl)))).
Defined.

(** C2 fails on the code: with the empty string as session the body holds
    the session of the page URL, and without one in the page URL nothing is
    sent at all; the amount 2.01 is not sent as 2010000; and where there is
    no [window] a bet that names session and host is not sent. *)
Lemma empty_session_is_not_sent :
  (map (body_field "sessionID")
     (network (snd (requestBet ok Number_toString
                      (bet (Some 1%float) (Some "base") (Some "") (Some "h")) game_page)))
   = [Some (VStr "B")]
   /\ requestBet ok Number_toString
        (bet (Some 1%float) (Some "base") (Some "") (Some "h")) blank_page
      = (Rejected (Error sessionID_required), blank_page))
  /\ (map wire_amount
        (network (snd (requestBet ok Number_toString
                         (bet (Some 2.01%float) (Some "base") (Some "s1") (Some "h"))
                         blank_page)))
      = [Some (VNum (2.01 * 1000000)%float)]
      /\ (2.01 * 1000000 =? 2010000)%float = false)
  /\ requestBet ok Number_toString
       (bet (Some 2.5%float) (Some "base") (Some "s1") (Some "h")) node_process
     = (Rejected (ReferenceError "window is not defined"), node_process).
Proof. vm_compute. repeat split; reflexivity. Qed.

Lemma bet_request_on_the_wire_witness :
  network (snd (requestBet ok Number_toString
                  {| bet_amount := Some 2.5%float;
                     bet_mode := Some "base";
                     bet_currency := Some "USD";
                     bet_sessionID := Some "s1";
                     bet_rgsUrl := Some "h" |} blank_page))
  = [{| req_url := "https://h/wallet/play";
        req_method := POST;
        req_headers := [("Content-Type", "application/json")];
        req_body := Some (VObj [("mode", VStr "base");
                                ("currency", VStr "USD");
                                ("sessionID", VStr "s1");
                                ("amount", VNum 2500000%float)]) |}].
Proof.
  destruct (bet_request_on_the_wire ok Number_toString
              "s1" "h" "base" "USD" 2.5%float blank_page
              eq_refl eq_refl eq_refl eq_refl) as [[amount [Hnet Hamount]] _].
  destruct (Hamount 2500000%Z eq_refl) as [Hwhole _].
  rewrite Hwhole in Hnet. exact Hnet.
Defined.

Lemma status_200_returns_the_body_witness :
  fst (invoke ok Number_toString (Balance None) game_page)
  = Resolved insufficient_balance.
Proof.
  exact (status_200_returns_the_body ok Number_toString (Balance None) game_page
           balance_request
           {| resp_status := 200; resp_statusText := "OK";
              resp_json := Some insufficient_balance |}
           insufficient_balance eq_refl eq_refl eq_refl eq_refl).
Defined.

Lemma null_error_body_raises_TypeError_witness :
  fst (invoke (server_error (Some VNull)) Number_toString (Balance None) game_page)
  = Rejected (TypeError "Cannot read properties of null (reading 'message')").
Proof.
  refine (null_error_body_raises_TypeError (server_error (Some VNull)) Number_toString
            (Balance None) game_page balance_request
            {| resp_status := 500; resp_statusText := "Internal Server Error";
               resp_json := Some VNull |}
            eq_refl eq_refl _ eq_refl).
  discriminate.
Defined.

(** The same answer with a body that is not JSON, or with a message. *)
Example server_error_carries_the_status :
  fst (invoke (server_error None) Number_toString (Balance None) game_page)
  = Rejected (Error "RGS API error: 500 Internal Server Error")
  /\ fst (invoke (server_error (Some (VObj [("message", VStr "boom")])))
            Number_toString (Balance None) game_page)
     = Rejected (Error "RGS API error: 500 Internal Server Error - boom")
  /\ fst (Legacy.post (server_error (Some insufficient_balance)) Number_toString
            "/wallet/balance" (VStr "h") (VObj [("sessionID", VStr "B")]) game_page)
     = Resolved insufficient_balance.
Proof. vm_compute. repeat split; reflexivity. Qed.

(** C5 fails on the code: the empty string is an explicit session, not an
    omitted one, and the session of the page URL is used all the same. *)
Lemma empty_explicit_session_falls_back :
  map (body_field "sessionID")
    (network (snd (requestAuthenticate ok Number_toString
                     (Some {| auth_sessionID := Some "";
                              auth_rgsUrl := None;
                              auth_language := None |}) game_page)))
  = [Some (VStr "B")].
Proof. vm_compute. reflexivity. Qed.

Lemma explicit_wins_unless_omitted_or_empty_witness :
  network (snd (invoke ok Number_toString (Authenticate (Some session_A)) game_page))
  = [authenticate_A_request]
  /\ req_url authenticate_A_request = "https://h/wallet/authenticate"
  /\ body_field "sessionID" authenticate_A_request = Some (VStr "A").
Proof.
  destruct (explicit_wins_unless_omitted_or_empty ok Number_toString
              (Authenticate (Some session_A)) game_page authenticate_A_request
              eq_refl) as [[h [Hh Hurl]] [Hsession _]].
  injection Hh as <-.
  exact (conj eq_refl (conj Hurl (Hsession eq_refl))).
Defined.

(** C6 fails on the code: [requestForceResult] takes no session, so on a
    page whose URL names the host and no session it does not fail, it is
    sent. Nor is every failure the one that names the missing field:
    [requestBet()] fails on the read of its options, and where there is no
    [window] [requestBalance()] fails on the read of the page URL. *)
Lemma force_result_is_sent_without_a_session :
  (ambient "sessionID" host_page = VNull
   /\ requestForceResult ok Number_toString search_bonus host_page
      = (Resolved insufficient_balance, sent search_request host_page))
  /\ invoke ok Number_toString BetWithoutOptions blank_page
     = (Rejected (TypeError "Cannot read properties of undefined (reading 'sessionID')"),
        blank_page)
  /\ requestBalance ok Number_toString None node_process
     = (Rejected (ReferenceError "window is not defined"), node_process).
Proof. vm_compute. repeat split; reflexivity. Qed.

Lemma missing_config_fails_before_network_witness :
  invoke ok Number_toString (Balance None) blank_page
  = (Rejected (Error sessionID_required), blank_page)
  /\ invoke ok Number_toString (ForceResult {| force_mode := Some "base";
                                               force_search := VObj [];
                                               force_rgsUrl := None |}) blank_page
     = (Rejected (Error rgsUrl_required), blank_page)
  /\ exists r,
       network (snd (invoke ok Number_toString (Balance None) game_page)) = [r].
Proof.
  split; [ | split ].
  - exact (proj1 (missing_config_fails_before_network ok Number_toString
                    (Balance None) blank_page eq_refl eq_refl)
             eq_refl eq_refl eq_refl).
  - exact (proj1 (proj2 (missing_config_fails_before_network ok Number_toString
                           (ForceResult {| force_mode := Some "base";
                                           force_search := VObj [];
                                           force_rgsUrl := None |}) blank_page
                           eq_refl eq_refl))
             eq_refl eq_refl).
  - exact (proj2 (proj2 (missing_config_fails_before_network ok Number_toString
                           (Balance None) game_page eq_refl eq_refl))
             (or_intror eq_refl) eq_refl).
Defined.



(** C8 fails on the code: a bet without [amount] and without [mode] is not
    refused; in a page it is sent, with [null] as amount and no mode, and
    where there is no [window] it fails on the read of the page URL. *)
Lemma bet_without_amount_and_mode_is_sent :
  requestBet ok Number_toString (bet None None (Some "s1") (Some "h")) node_process
  = (Rejected (ReferenceError "window is not defined"), node_process)
  /\ requestBet ok Number_toString (bet None None (Some "s1") (Some "h")) blank_page
  = (Resolved insufficient_balance,
     {| window_defined := true;
        location_search := [];
        network := [{| req_url := "https://h/wallet/play";
                       req_method := POST;
                       req_headers := [("Content-Type", "application/json")];
                       req_body := Some (VObj [("currency", VStr "USD");
                                               ("sessionID", VStr "s1");
                                               ("amount", VNull)]) |}];
        console := [] |}).
Proof. vm_compute. split; reflexivity. Qed.

Lemma only_session_and_host_are_checked_witness :
  network (snd (invoke ok Number_toString
                  (Bet (bet None None (Some "s1") (Some "h"))) blank_page))
  = [request_of Number_toString (Bet (bet None None (Some "s1") (Some "h"))) blank_page]
  /\ ((options_readable (Balance None) = false
       /\ exists property,
            invoke ok Number_toString (Balance None) blank_page
            = (Rejected (TypeError ("Cannot read properties of undefined (reading '"
                                      ++ property ++ "')")), blank_page))
      \/ (uses_sessionID (Balance None) = true
          /\ truthy (resolved_sessionID (Balance None) blank_page) = false
          /\ invoke ok Number_toString (Balance None) blank_page
             = (Rejected (Error sessionID_required), blank_page))
      \/ (truthy (resolved_rgsUrl (Balance None) blank_page) = false
          /\ invoke ok Number_toString (Balance None) blank_page
             = (Rejected (Error rgsUrl_required), blank_page))).
Proof.
  split.
  - exact (proj2 (only_session_and_host_are_checked ok Number_toString
                    (Bet (bet None None (Some "s1") (Some "h"))) blank_page eq_refl)
             eq_refl (or_intror eq_refl) eq_refl).
  - exact (proj1 (only_session_and_host_are_checked ok Number_toString
                    (Balance None) blank_page eq_refl) eq_refl).
Defined.

(** C9 fails on the code: on a page whose URL says [lang=fr] the language
    sent is "fr", and where there is no [window] nothing is sent. *)
Lemma page_language_comes_before_the_default :
  map (body_field "language")
    (network (snd (requestAuthenticate ok Number_toString
                     (Some {| auth_sessionID := Some "s1";
                              auth_rgsUrl := Some "api.example.com";
                              auth_language := None |}) french_page)))
  = [Some (VStr "fr")]
  /\ requestAuthenticate ok Number_toString
       (Some {| auth_sessionID := Some "s1";
                auth_rgsUrl := Some "api.example.com";
                auth_language := None |}) node_process
     = (Rejected (ReferenceError "window is not defined"), node_process).
Proof. vm_compute. split; reflexivity. Qed.

Lemma authenticate_defaults_language_witness :
  network (snd (requestAuthenticate ok Number_toString
                  (Some {| auth_sessionID := Some "s1";
                           auth_rgsUrl := Some "api.example.com";
                           auth_language := None |}) blank_page))
  = [{| req_url := "https://api.example.com/wallet/authenticate";
        req_method := POST;
        req_headers := [("Content-Type", "application/json")];
        req_body := Some (VObj [("sessionID", VStr "s1");
                                ("language", VStr "en")]) |}].
Proof.
  exact (authenticate_defaults_language ok Number_toString blank_page eq_refl eq_refl).
Defined.

Lemma empty_string_counts_as_omitted_witness :
  (exists r,
     network (snd (invoke ok Number_toString
                     (Balance (Some {| balance_sessionID := Some "";
                                       balance_rgsUrl := Some "" |})) game_page))
     = [r]
     /\ body_field "sessionID" r = Some (VStr "B"))
  /\ invoke ok Number_toString
       (Balance (Some {| balance_sessionID := Some ""; balance_rgsUrl := Some "" |}))
       blank_page
     = (Rejected (Error sessionID_required), blank_page)
  /\ invoke ok Number_toString
       (ForceResult {| force_mode := Some "base";
                       force_search := VObj [];
                       force_rgsUrl := Some "" |}) blank_page
     = (Rejected (Error rgsUrl_required), blank_page)
  /\ invoke ok Number_toString
       (Balance (Some {| balance_sessionID := Some ""; balance_rgsUrl := Some "h" |}))
       node_process
     = (Rejected (ReferenceError "window is not defined"), node_process).
Proof.
  split; [ | split; [ | split ] ].
  - exact (proj1 (proj2 (proj2 (empty_string_counts_as_omitted ok Number_toString
                                  (Balance (Some {| balance_sessionID := Some "";
                                                    balance_rgsUrl := Some "" |}))
                                  game_page)))
             eq_refl eq_refl eq_refl eq_refl).
  - exact (proj1 (proj2 (proj2 (proj2 (empty_string_counts_as_omitted ok Number_toString
                                         (Balance (Some {| balance_sessionID := Some "";
                                                           balance_rgsUrl := Some "" |}))
                                         blank_page))))
             eq_refl eq_refl eq_refl).
  - exact (proj1 (proj2 (proj2 (proj2 (proj2
                    (empty_string_counts_as_omitted ok Number_toString
                       (ForceResult {| force_mode := Some "base";
                                       force_search := VObj [];
                                       force_rgsUrl := Some "" |})
                       blank_page)))))
             eq_refl eq_refl eq_refl).
  - exact (proj2 (proj2 (proj2 (proj2 (proj2
                    (empty_string_counts_as_omitted ok Number_toString
                       (Balance (Some {| balance_sessionID := Some "";
                                         balance_rgsUrl := Some "h" |}))
                       node_process)))))
             eq_refl (or_introl eq_refl)).
Defined.

(** ** The further properties at concrete inputs *)

Lemma transport_failure_is_passed_on_witness :
  invoke unreachable Number_toString (Balance None) game_page
  = (Rejected (FetchFailure "Failed to fetch"), sent balance_request game_page).
Proof.
  exact (transport_failure_is_passed_on unreachable Number_toString
           (Balance None) game_page balance_request
           (FetchFailure "Failed to fetch") eq_refl eq_refl).
Defined.

Lemma undecodable_body_is_a_SyntaxError_witness :
  invoke (answers 200 "OK" None) Number_toString (Balance None) game_page
  = (Rejected SyntaxError, sent balance_request game_page).
Proof.
  exact (undecodable_body_is_a_SyntaxError (answers 200 "OK" None) Number_toString
           (Balance None) game_page balance_request
           {| resp_status := 200; resp_statusText := "OK"; resp_json := None |}
           eq_refl eq_refl eq_refl eq_refl).
Defined.

Lemma console_records_bad_statuses_only_witness :
  console (snd (invoke ok Number_toString (Balance None) blank_page)) = []
  /\ console (snd (invoke (server_error None) Number_toString (Balance None) game_page))
     = [(500%N, "Internal Server Error")]
  /\ console (snd (invoke ok Number_toString (Balance None) game_page)) = [].
Proof.
  split; [ | split ].
  - exact (proj1 (console_records_bad_statuses_only ok Number_toString
                    (Balance None) blank_page) eq_refl).
  - exact (proj2 (console_records_bad_statuses_only (server_error None) Number_toString
                    (Balance None) game_page) balance_request eq_refl).
  - exact (proj2 (console_records_bad_statuses_only ok Number_toString
                    (Balance None) game_page) balance_request eq_refl).
Defined.

Lemma error_carries_the_server_message_witness :
  fst (invoke (server_error (Some (VObj [("message", VStr "boom")])))
         Number_toString (Balance None) game_page)
  = Rejected (Error "RGS API error: 500 Internal Server Error - boom").
Proof.
  refine (error_carries_the_server_message
            (server_error (Some (VObj [("message", VStr "boom")]))) Number_toString
            (Balance None) game_page balance_request
            {| resp_status := 500; resp_statusText := "Internal Server Error";
               resp_json := Some (VObj [("message", VStr "boom")]) |}
            [("message", VStr "boom")] "boom"
            eq_refl eq_refl _ eq_refl eq_refl eq_refl).
  discriminate.
Defined.

Lemma error_without_a_server_message_witness :
  fst (invoke (server_error None) Number_toString (Balance None) game_page)
  = Rejected (Error "RGS API error: 500 Internal Server Error").
Proof.
  refine (error_without_a_server_message (server_error None) Number_toString
            (Balance None) game_page balance_request
            {| resp_status := 500; resp_statusText := "Internal Server Error";
               resp_json := None |}
            eq_refl eq_refl _ (or_introl eq_refl)).
  discriminate.
Defined.

Lemma bad_status_never_resolves_witness :
  exists e,
    fst (invoke (server_error (Some VNull)) Number_toString (Balance None) game_page)
    = Rejected e.
Proof.
  refine (bad_status_never_resolves (server_error (Some VNull)) Number_toString
            (Balance None) game_page balance_request
            {| resp_status := 500; resp_statusText := "Internal Server Error";
               resp_json := Some VNull |}
            eq_refl eq_refl _).
  discriminate.
Defined.

Lemma requests_are_json_posts_witness :
  req_method balance_request = POST
  /\ req_headers balance_request = [("Content-Type", "application/json")]
  /\ exists props, req_body balance_request = Some (VObj props).
Proof.
  exact (requests_are_json_posts ok Number_toString (Balance None) game_page
           balance_request eq_refl).
Defined.

Lemma host_and_session_on_the_wire_are_not_empty_witness :
  (exists h, is_empty h = false
             /\ req_url balance_request = "https://" ++ h ++ "/wallet/balance")
  /\ exists s, is_empty s = false
               /\ body_field "sessionID" balance_request = Some (VStr s).
Proof.
  destruct (host_and_session_on_the_wire_are_not_empty ok Number_toString
              (Balance None) game_page balance_request eq_refl) as [Hhost Hsession].
  exact (conj Hhost (Hsession eq_refl)).
Defined.

Lemma language_and_currency_are_never_empty_witness :
  exists l, is_empty l = false
            /\ body_field "language" authenticate_A_request = Some (VStr l).
Proof.
  exact (proj1 (language_and_currency_are_never_empty ok Number_toString
                  game_page authenticate_A_request)
           (Some session_A) eq_refl).
Defined.

Lemma event_index_is_sent_as_text_witness :
  body_field "event" event_request = Some (VStr "7").
Proof.
  exact (event_index_is_sent_as_text ok Number_toString
           {| event_eventIndex := Some 7%float;
              event_sessionID := None;
              event_rgsUrl := None |}
           game_page event_request eq_refl).
Defined.

Lemma force_result_sends_no_session_witness :
  body_field "sessionID" search_request = None
  /\ body_field "mode" search_request = Some (VStr "base")
  /\ body_field "search" search_request = Some (VObj [("symbol", VStr "BONUS")]).
Proof.
  exact (force_result_sends_no_session ok Number_toString search_bonus game_page
           search_request eq_refl).
Defined.

Lemma get_sends_no_body_witness :
  fst (get ok Number_toString "/wallet/balance" (VStr "h") blank_page)
  = Resolved insufficient_balance
  /\ (exists e,
        fst (get (server_error None) Number_toString "/wallet/balance" (VStr "h") blank_page)
        = Rejected e)
  /\ get ok Number_toString "/wallet/balance" (VObj [("toString", VNull)]) blank_page
     = (Rejected (TypeError "Cannot convert object to primitive value"), blank_page).
Proof.
  split; [ | split ].
  - exact (proj1 (proj2 (proj1 (get_sends_no_body ok Number_toString
                                  "/wallet/balance" (VStr "h") blank_page)
                           "h" eq_refl)
                    {| resp_status := 200; resp_statusText := "OK";
                       resp_json := Some insufficient_balance |} eq_refl)
             insufficient_balance eq_refl eq_refl).
  - refine (proj2 (proj2 (proj1 (get_sends_no_body (server_error None) Number_toString
                                   "/wallet/balance" (VStr "h") blank_page)
                            "h" eq_refl)
                     {| resp_status := 500; resp_statusText := "Internal Server Error";
                        resp_json := None |} eq_refl) _).
    discriminate.
  - exact (proj2 (get_sends_no_body ok Number_toString
                    "/wallet/balance" (VObj [("toString", VNull)]) blank_page)
             (TypeError "Cannot convert object to primitive value") eq_refl).
Defined.

Lemma legacy_always_sends_witness :
  map req_url
    (network (snd (Legacy.invoke ok Number_toString
                     (Balance (Some {| balance_sessionID := None;
                                       balance_rgsUrl := None |})) game_page)))
  = ["https://undefined/wallet/balance"].
Proof.
  exact (f_equal (map req_url)
           (legacy_always_sends ok Number_toString
              (Balance (Some {| balance_sessionID := None; balance_rgsUrl := None |}))
              game_page eq_refl)).
Defined.

Lemma legacy_returns_the_body_whatever_the_status_witness :
  fst (Legacy.invoke (server_error (Some insufficient_balance)) Number_toString
         (Balance (Some explicit_balance)) blank_page)
  = Resolved insufficient_balance.
Proof.
  exact (legacy_returns_the_body_whatever_the_status
           (server_error (Some insufficient_balance)) Number_toString
           (Balance (Some explicit_balance)) blank_page
           {| resp_status := 500; resp_statusText := "Internal Server Error";
              resp_json := Some insufficient_balance |}
           insufficient_balance eq_refl eq_refl eq_refl).
Defined.

Lemma explicit_calls_behave_as_before_witness :
  invoke ok Number_toString (Balance (Some explicit_balance)) blank_page
  = Legacy.invoke ok Number_toString (Balance (Some explicit_balance)) blank_page
  /\ invoke ok Number_toString (Balance (Some explicit_balance)) node_process
     = (Rejected (ReferenceError "window is not defined"), node_process)
  /\ network (snd (Legacy.invoke ok Number_toString
                     (Balance (Some explicit_balance)) node_process))
     = [balance_request].
Proof.
  split.
  - refine (proj2 (proj1 (explicit_calls_behave_as_before ok Number_toString
                            (Balance (Some explicit_balance)) blank_page eq_refl)
                     eq_refl) _).
    intros resp H. injection H as <-. reflexivity.
  - exact (proj2 (explicit_calls_behave_as_before ok Number_toString
                    (Balance (Some explicit_balance)) node_process eq_refl)
             eq_refl).
Defined.

Lemma other_page_parameters_are_ignored_witness :
  fst (invoke ok Number_toString (Balance None)
         {| window_defined := window_defined game_page;
            location_search := ("debug", "1") :: location_search game_page;
            network := network game_page;
            console := console game_page |})
  = fst (invoke ok Number_toString (Balance None) game_page).
Proof.
  refine (proj1 (other_page_parameters_are_ignored ok Number_toString
                   (Balance None) game_page "debug" "1" _ _ _ _));
    discriminate.
Defined.

Lemma without_window_nothing_is_sent_witness :
  invoke ok Number_toString (Balance (Some explicit_balance)) node_process
  = (Rejected (ReferenceError "window is not defined"), node_process).
Proof.
  exact (without_window_nothing_is_sent ok Number_toString
           (Balance (Some explicit_balance)) node_process eq_refl).
Defined.

